(** * imouapi: the device layer ([imouapi/device.py])

    A shallow embedding of [ImouDevice] and [ImouDiscoverService].

    Python objects that are mutated in place are modelled by explicit state
    passing: a method of [ImouDevice] is a function from the device record
    and the log of calls made so far to an outcome (a value or a raised
    exception), the device as the call leaves it, and the extended log.  An
    exception does not roll the object back, so the state is returned on
    both outcomes. *)

From stdpp Require Import gmap strings list.
From Stdlib Require Import ZArith Ascii.

Set Warnings "-register-all".

(** ** Python values *)

(** Values decoded from the JSON bodies of the cloud API.  A JSON object is a
    Python [dict] with string keys; numbers are kept as integers (no claim
    looks inside a number). *)
Inductive json : Type :=
| JNull
| JBool (b : bool)
| JInt (n : Z)
| JStr (s : string)
| JList (items : list json)
| JDict (fields : gmap string json).

(** The exceptions that can travel through [device.py].  [InvalidResponse] is
    the package's own exception ([imouapi.exceptions]); messages are dropped.
    [APIError] stands for whatever else the API client or an entity raises. *)
Inductive PyException : Type :=
| InvalidResponse
| KeyError
| TypeError
| AttributeError
| IndexError
| APIError (what : string).

Inductive Outcome (A : Type) : Type :=
| Return (a : A)
| Raise (e : PyException).
Arguments Return {A} a.
Arguments Raise {A} e.

(** ** A state-and-exception monad

    [M S A] is a computation over a mutable state [S] that returns an [A] or
    raises.  The state survives a raise. *)
Definition M (S A : Type) : Type := S -> Outcome A * S.

Definition ret {S A} (a : A) : M S A := fun s => (Return a, s).

Definition raise {S A} (e : PyException) : M S A := fun s => (Raise e, s).

Definition bind {S A B} (m : M S A) (k : A -> M S B) : M S B :=
  fun s =>
    match m s with
    | (Return a, s') => k a s'
    | (Raise e, s') => (Raise e, s')
    end.

Definition lift {S A} (o : Outcome A) : M S A := fun s => (o, s).

Definition get_state {S} : M S S := fun s => (Return s, s).

Definition modify {S} (f : S -> S) : M S unit := fun s => (Return tt, f s).

(** [try: m except Exception as x: h x] *)
Definition try_except {S A} (m : M S A) (h : PyException -> M S A) : M S A :=
  fun s =>
    match m s with
    | (Return a, s') => (Return a, s')
    | (Raise e, s') => h e s'
    end.

Declare Scope py_scope.
Delimit Scope py_scope with py.
Notation "x <- m ;; k" := (bind m (fun x => k))
  (at level 100, m at next level, right associativity) : py_scope.
Notation "m ;;; k" := (bind m (fun _ => k))
  (at level 100, right associativity) : py_scope.

(** ** Python built-ins used by the module *)

Module Py.

(** [s.lower()].  A string is held as its UTF-8 bytes, so it is made of
    ASCII characters only when every byte is below 128.  On such a string
    [str.lower] changes the letters A to Z and nothing else.  On any other
    string it is Python's Unicode lower-casing (which, for one, turns the
    Kelvin sign U+212A into the letter k); that part is taken as a
    parameter, [unicode_lower]. *)
Definition lower_ascii (c : ascii) : ascii :=
  let n := nat_of_ascii c in
  if (65 <=? n)%nat && (n <=? 90)%nat then ascii_of_nat (n + 32) else c.

Fixpoint lower_letters (s : string) : string :=
  match s with
  | EmptyString => EmptyString
  | String c rest => String (lower_ascii c) (lower_letters rest)
  end.

Fixpoint is_ascii (s : string) : bool :=
  match s with
  | EmptyString => true
  | String c rest => (nat_of_ascii c <? 128)%nat && is_ascii rest
  end.

Definition lower (unicode_lower : string -> string) (s : string) : string :=
  if is_ascii s then lower_letters s else unicode_lower s.

(** [s.split(sep)] for a one-character separator: never the empty list,
    [''.split(',') == ['']]. *)
Fixpoint split (sep : ascii) (s : string) : list string :=
  match s with
  | EmptyString => [EmptyString]
  | String c rest =>
      if Ascii.eqb c sep then EmptyString :: split sep rest
      else match split sep rest with
           | [] => [String c EmptyString]
           | word :: words => String c word :: words
           end
  end.

(** [x in l] for a list of strings. *)
Definition contains (x : string) (l : list string) : bool :=
  existsb (String.eqb x) l.

(** [v == s] for a string literal [s]: a value that is not a [str] is
    never equal to one. *)
Definition eq_str (v : json) (s : string) : bool :=
  match v with
  | JStr s' => String.eqb s' s
  | _ => false
  end.

(** [v[key]] for a string key. *)
Definition getitem (v : json) (key : string) : Outcome json :=
  match v with
  | JDict fields =>
      match fields !! key with
      | Some x => Return x
      | None => Raise KeyError
      end
  | _ => Raise TypeError
  end.

(** [v.split(",")]: only [str] has the method. *)
Definition split_method (v : json) : Outcome (list string) :=
  match v with
  | JStr s => Return (split ","%char s)
  | _ => Raise AttributeError
  end.

(** [len(v)] *)
Definition len (v : json) : Outcome nat :=
  match v with
  | JStr s => Return (String.length s)
  | JList items => Return (List.length items)
  | JDict fields => Return (size fields)
  | _ => Raise TypeError
  end.

(** [v[0]]; the keys of a decoded JSON object are strings, so [0] is never
    one of them. *)
Definition first (v : json) : Outcome json :=
  match v with
  | JList (x :: _) => Return x
  | JList [] => Raise IndexError
  | JStr (String c _) => Return (JStr (String c EmptyString))
  | JStr EmptyString => Raise IndexError
  | JDict _ => Raise KeyError
  | _ => Raise TypeError
  end.

Fixpoint chars (s : string) : list json :=
  match s with
  | EmptyString => []
  | String c rest => JStr (String c EmptyString) :: chars rest
  end.

(** The elements a [for] loop over [v] visits. *)
Definition iter (v : json) : Outcome (list json) :=
  match v with
  | JList items => Return items
  | JStr s => Return (chars s)
  | JDict fields => Return (JStr <$> (map_to_list fields).*1)
  | _ => Raise TypeError
  end.

End Py.

(** ** Constants ([imouapi/const.py])

    The four description tables are not part of the sources at hand; they
    are taken as parameters.  A table is a [dict] literal: its keys in
    insertion order, each with its description. *)
Definition Table : Type := list (string * string).

Definition keys (t : Table) : list string := t.*1.

Fixpoint table_get (t : Table) (key : string) : option string :=
  match t with
  | [] => None
  | (k, v) :: rest => if String.eqb k key then Some v else table_get rest key
  end.

(** [t[key]] *)
Definition table_item (t : Table) (key : string) : Outcome string :=
  match table_get t key with
  | Some v => Return v
  | None => Raise KeyError
  end.

(** [key in t] *)
Definition table_has (t : Table) (key : string) : bool :=
  match table_get t key with
  | Some _ => true
  | None => false
  end.

Record Const : Type := {
  BINARY_SENSORS : Table;
  IMOU_CAPABILITIES : Table;
  IMOU_SWITCHES : Table;
  SENSORS : Table
}.

(** ** Entities ([imouapi/device_entity.py]) *)

Inductive EntityClass : Type :=
| SwitchClass
| SensorClass
| BinarySensorClass.

(** Modelled from the spec: [device_entity.py] is not part of the sources at
    hand.  An entity is built from (api_client, device_id, device_name,
    capability_name); its identity is (device_id, capability_name); it holds
    the last-known state, an enabled flag, and a flag telling whether the
    state is fresh since the last update. *)
Record ImouEntity : Type := {
  entity_class : EntityClass;
  entity_device_id : json;
  entity_device_name : json;
  entity_name : string;
  entity_state : json;
  entity_enabled : bool;
  entity_updated : bool
}.

Definition new_entity (cls : EntityClass) (device_id device_name : json)
    (sensor_type : string) : ImouEntity :=
  {| entity_class := cls;
     entity_device_id := device_id;
     entity_device_name := device_name;
     entity_name := sensor_type;
     entity_state := JNull;
     entity_enabled := true;
     entity_updated := false |}.

Definition ImouSwitch := new_entity SwitchClass.
Definition ImouSensor := new_entity SensorClass.
Definition ImouBinarySensor := new_entity BinarySensorClass.

(** ** The API client ([imouapi/api.py]) and the log of calls *)

(** What the device layer asks of its collaborators, in the order asked. *)
Inductive Event : Type :=
| CallDeviceBaseDetailList (ids : list json)
| CallDeviceOnline (device_id : json)
| CallDeviceBaseList
| CallEntityUpdate (e : ImouEntity).

(** Modelled from the spec: [api.py] is not part of the sources at hand.  The
    client exposes three asynchronous calls that return decoded objects, and
    three synchronous getters.  An answer may depend on everything asked
    before, and any call may raise.  [entity_refresh] is what the client
    lets an entity's own [async_update] see: the refreshed state, or an
    exception. *)
Record ImouAPIClient : Type := {
  get_base_url : string;
  get_timeout : Z;
  is_connected : bool;
  async_api_deviceBaseDetailList : list Event -> list json -> Outcome (gmap string json);
  async_api_deviceOnline : list Event -> json -> Outcome (gmap string json);
  async_api_deviceBaseList : list Event -> Outcome (gmap string json);
  entity_refresh : list Event -> ImouEntity -> Outcome json
}.

(** ** [ImouDevice] *)

(** [self._sensor_instances]: a [dict] created with the three keys "switch",
    "sensor", "binary_sensor" in this order; no key is ever added or
    removed, so [.items()] always visits them in this order. *)
Record SensorInstances : Type := {
  switch : list ImouEntity;
  sensor : list ImouEntity;
  binary_sensor : list ImouEntity
}.

Record ImouDevice : Type := {
  _device_id : json;
  _catalog : json;
  _firmware : json;
  _name : json;
  _given_name : string;
  _device_model : json;
  _manufacturer : string;
  _online : bool;
  _capabilities : list string;
  _switches : list string;
  _sensor_instances : SensorInstances;
  _initialized : bool;
  _enabled : bool
}.

(** [ImouDevice.__init__] *)
Definition init (device_id : json) : ImouDevice :=
  {| _device_id := device_id;
     _catalog := JStr "N.A.";
     _firmware := JStr "N.A.";
     _name := JStr "N.A.";
     _given_name := EmptyString;
     _device_model := JStr "N.A.";
     _manufacturer := "Imou";
     _online := false;
     _capabilities := [];
     _switches := [];
     _sensor_instances := {| switch := []; sensor := []; binary_sensor := [] |};
     _initialized := false;
     _enabled := true |}.

(** Attribute assignments, one per attribute the module writes. *)
Definition set_catalog (v : json) (d : ImouDevice) : ImouDevice :=
  {| _device_id := _device_id d; _catalog := v; _firmware := _firmware d;
     _name := _name d; _given_name := _given_name d;
     _device_model := _device_model d; _manufacturer := _manufacturer d;
     _online := _online d; _capabilities := _capabilities d;
     _switches := _switches d; _sensor_instances := _sensor_instances d;
     _initialized := _initialized d; _enabled := _enabled d |}.

Definition set_firmware (v : json) (d : ImouDevice) : ImouDevice :=
  {| _device_id := _device_id d; _catalog := _catalog d; _firmware := v;
     _name := _name d; _given_name := _given_name d;
     _device_model := _device_model d; _manufacturer := _manufacturer d;
     _online := _online d; _capabilities := _capabilities d;
     _switches := _switches d; _sensor_instances := _sensor_instances d;
     _initialized := _initialized d; _enabled := _enabled d |}.

Definition set_vendor_name (v : json) (d : ImouDevice) : ImouDevice :=
  {| _device_id := _device_id d; _catalog := _catalog d; _firmware := _firmware d;
     _name := v; _given_name := _given_name d;
     _device_model := _device_model d; _manufacturer := _manufacturer d;
     _online := _online d; _capabilities := _capabilities d;
     _switches := _switches d; _sensor_instances := _sensor_instances d;
     _initialized := _initialized d; _enabled := _enabled d |}.

Definition set_device_model (v : json) (d : ImouDevice) : ImouDevice :=
  {| _device_id := _device_id d; _catalog := _catalog d; _firmware := _firmware d;
     _name := _name d; _given_name := _given_name d;
     _device_model := v; _manufacturer := _manufacturer d;
     _online := _online d; _capabilities := _capabilities d;
     _switches := _switches d; _sensor_instances := _sensor_instances d;
     _initialized := _initialized d; _enabled := _enabled d |}.

Definition set_online (v : bool) (d : ImouDevice) : ImouDevice :=
  {| _device_id := _device_id d; _catalog := _catalog d; _firmware := _firmware d;
     _name := _name d; _given_name := _given_name d;
     _device_model := _device_model d; _manufacturer := _manufacturer d;
     _online := v; _capabilities := _capabilities d;
     _switches := _switches d; _sensor_instances := _sensor_instances d;
     _initialized := _initialized d; _enabled := _enabled d |}.

Definition set_capabilities (v : list string) (d : ImouDevice) : ImouDevice :=
  {| _device_id := _device_id d; _catalog := _catalog d; _firmware := _firmware d;
     _name := _name d; _given_name := _given_name d;
     _device_model := _device_model d; _manufacturer := _manufacturer d;
     _online := _online d; _capabilities := v;
     _switches := _switches d; _sensor_instances := _sensor_instances d;
     _initialized := _initialized d; _enabled := _enabled d |}.

Definition set_switches (v : list string) (d : ImouDevice) : ImouDevice :=
  {| _device_id := _device_id d; _catalog := _catalog d; _firmware := _firmware d;
     _name := _name d; _given_name := _given_name d;
     _device_model := _device_model d; _manufacturer := _manufacturer d;
     _online := _online d; _capabilities := _capabilities d;
     _switches := v; _sensor_instances := _sensor_instances d;
     _initialized := _initialized d; _enabled := _enabled d |}.

Definition set_sensor_instances (v : SensorInstances) (d : ImouDevice) : ImouDevice :=
  {| _device_id := _device_id d; _catalog := _catalog d; _firmware := _firmware d;
     _name := _name d; _given_name := _given_name d;
     _device_model := _device_model d; _manufacturer := _manufacturer d;
     _online := _online d; _capabilities := _capabilities d;
     _switches := _switches d; _sensor_instances := v;
     _initialized := _initialized d; _enabled := _enabled d |}.

Definition set_initialized (v : bool) (d : ImouDevice) : ImouDevice :=
  {| _device_id := _device_id d; _catalog := _catalog d; _firmware := _firmware d;
     _name := _name d; _given_name := _given_name d;
     _device_model := _device_model d; _manufacturer := _manufacturer d;
     _online := _online d; _capabilities := _capabilities d;
     _switches := _switches d; _sensor_instances := _sensor_instances d;
     _initialized := v; _enabled := _enabled d |}.

(** [get_device_id] *)
Definition get_device_id (d : ImouDevice) : json := _device_id d.

(** [get_name]: the given name when it is not the empty string, else the
    name the vendor reported. *)
Definition get_name (d : ImouDevice) : json :=
  if negb (String.eqb (_given_name d) EmptyString) then JStr (_given_name d)
  else _name d.

(** [set_name] *)
Definition set_name (given_name : string) (d : ImouDevice) : ImouDevice :=
  {| _device_id := _device_id d; _catalog := _catalog d; _firmware := _firmware d;
     _name := _name d; _given_name := given_name;
     _device_model := _device_model d; _manufacturer := _manufacturer d;
     _online := _online d; _capabilities := _capabilities d;
     _switches := _switches d; _sensor_instances := _sensor_instances d;
     _initialized := _initialized d; _enabled := _enabled d |}.

Definition get_model (d : ImouDevice) : json := _device_model d.
Definition get_manufacturer (d : ImouDevice) : string := _manufacturer d.
Definition get_firmware (d : ImouDevice) : json := _firmware d.
Definition is_online (d : ImouDevice) : bool := _online d.

(** [set_enabled] *)
Definition set_enabled (value : bool) (d : ImouDevice) : ImouDevice :=
  {| _device_id := _device_id d; _catalog := _catalog d; _firmware := _firmware d;
     _name := _name d; _given_name := _given_name d;
     _device_model := _device_model d; _manufacturer := _manufacturer d;
     _online := _online d; _capabilities := _capabilities d;
     _switches := _switches d; _sensor_instances := _sensor_instances d;
     _initialized := _initialized d; _enabled := value |}.

Definition is_enabled (d : ImouDevice) : bool := _enabled d.

(** [get_all_sensors]: the three lists in the order of [.items()]. *)
Definition get_all_sensors (d : ImouDevice) : list ImouEntity :=
  switch (_sensor_instances d) ++ sensor (_sensor_instances d)
    ++ binary_sensor (_sensor_instances d).

(** [get_sensors_by_platform] *)
Definition get_sensors_by_platform (platform : string) (d : ImouDevice)
    : list ImouEntity :=
  if String.eqb platform "switch" then switch (_sensor_instances d)
  else if String.eqb platform "sensor" then sensor (_sensor_instances d)
  else if String.eqb platform "binary_sensor" then binary_sensor (_sensor_instances d)
  else [].

(** [get_sensor_by_name] *)
Definition get_sensor_by_name (name : string) (d : ImouDevice) : option ImouEntity :=
  find (fun e => String.eqb (entity_name e) name) (get_all_sensors d).

(** [self._sensor_instances[platform].append(e)] for the three platforms. *)
Definition append_switch (e : ImouEntity) (d : ImouDevice) : ImouDevice :=
  set_sensor_instances
    {| switch := switch (_sensor_instances d) ++ [e];
       sensor := sensor (_sensor_instances d);
       binary_sensor := binary_sensor (_sensor_instances d) |} d.

Definition append_sensor (e : ImouEntity) (d : ImouDevice) : ImouDevice :=
  set_sensor_instances
    {| switch := switch (_sensor_instances d);
       sensor := sensor (_sensor_instances d) ++ [e];
       binary_sensor := binary_sensor (_sensor_instances d) |} d.

Definition append_binary_sensor (e : ImouEntity) (d : ImouDevice) : ImouDevice :=
  set_sensor_instances
    {| switch := switch (_sensor_instances d);
       sensor := sensor (_sensor_instances d);
       binary_sensor := binary_sensor (_sensor_instances d) ++ [e] |} d.

(** Some capability equals [switch_type] once both are lower-cased. *)
Definition matches (unicode_lower : string -> string) (switch_type : string)
    (capabilities : list string) : bool :=
  existsb (fun capability => String.eqb (Py.lower unicode_lower switch_type) (Py.lower unicode_lower capability))
    capabilities.

(** ** Diagnostics *)

Record CapabilityInfo : Type := {
  capability_name : string;
  capability_description : string
}.

Record SensorInfo : Type := {
  sensor_name : string;
  sensor_description : string;
  sensor_state : json;
  sensor_is_enabled : bool;
  sensor_is_updated : bool
}.

(** The value of [get_diagnostics]: the "api" and "device" sub-dicts
    flattened, then the four lists. *)
Record Diagnostics : Type := {
  api_base_url : string;
  api_timeout : Z;
  api_is_connected : bool;
  device_id : json;
  device_name : json;
  device_catalog : json;
  device_given_name : string;
  device_model : json;
  device_firmware : json;
  device_manufacturer : string;
  device_online : string;
  capabilities : list CapabilityInfo;
  switches : list SensorInfo;
  sensors : list SensorInfo;
  binary_sensors : list SensorInfo
}.

(** [f"{description} ({name})"] *)
Definition with_name (description name : string) : string :=
  description +:+ " (" +:+ name +:+ ")".

(** The description with fall-back, as written for capabilities and
    switches: [f"{T[name]} ({name})" if name in T else name]. *)
Definition describe_or_name (t : Table) (name : string) : string :=
  match table_get t name with
  | Some description => with_name description name
  | None => name
  end.

(** The description without fall-back, as written for sensors and binary
    sensors: [f"{T[name]} ({name})"]. *)
Definition describe (t : Table) (name : string) : Outcome string :=
  match table_item t name with
  | Return description => Return (with_name description name)
  | Raise e => Raise e
  end.

Definition capability_info (t : Table) (capability_name : string) : CapabilityInfo :=
  {| capability_name := capability_name;
     capability_description := describe_or_name t capability_name |}.

Definition switch_info (t : Table) (sensor_instance : ImouEntity) : SensorInfo :=
  {| sensor_name := entity_name sensor_instance;
     sensor_description := describe_or_name t (entity_name sensor_instance);
     sensor_state := entity_state sensor_instance;
     sensor_is_enabled := entity_enabled sensor_instance;
     sensor_is_updated := entity_updated sensor_instance |}.

Definition sensor_info (t : Table) (sensor_instance : ImouEntity) : Outcome SensorInfo :=
  match describe t (entity_name sensor_instance) with
  | Return description =>
      Return {| sensor_name := entity_name sensor_instance;
                sensor_description := description;
                sensor_state := entity_state sensor_instance;
                sensor_is_enabled := entity_enabled sensor_instance;
                sensor_is_updated := entity_updated sensor_instance |}
  | Raise e => Raise e
  end.

(** A [for] loop that appends one item per element and stops at the first
    exception. *)
Fixpoint collect {A B} (f : A -> Outcome B) (l : list A) : Outcome (list B) :=
  match l with
  | [] => Return []
  | x :: rest =>
      match f x with
      | Raise e => Raise e
      | Return y =>
          match collect f rest with
          | Raise e => Raise e
          | Return ys => Return (y :: ys)
          end
      end
  end.

Definition nl : string := String (ascii_of_nat 10) EmptyString.

Section Device.

(** [str(v)] of a value that is not a [str]: Python's own rendering, taken
    as a parameter. *)
Variable py_repr : json -> string.

(** [s.lower()] of a string that is not all ASCII, see [Py.lower]. *)
Variable unicode_lower : string -> string.

Variable const : Const.
Variable api_client : ImouAPIClient.

(** [f"{v}"] *)
Definition py_str (v : json) : string :=
  match v with
  | JStr s => s
  | _ => py_repr v
  end.

(** [to_string] *)
Definition to_string (d : ImouDevice) : string :=
  py_str (_name d) +:+ " (" +:+ py_str (_device_model d) +:+ ", serial "
    +:+ py_str (_device_id d) +:+ ")".

(** [get_diagnostics] *)
Definition get_diagnostics (d : ImouDevice) : Outcome Diagnostics :=
  let online := if _online d then "yes" else "no" in
  let capabilities := capability_info (IMOU_CAPABILITIES const) <$> _capabilities d in
  let switches := switch_info (IMOU_SWITCHES const) <$> switch (_sensor_instances d) in
  match collect (sensor_info (SENSORS const)) (sensor (_sensor_instances d)) with
  | Raise e => Raise e
  | Return sensors =>
      match collect (sensor_info (BINARY_SENSORS const))
              (binary_sensor (_sensor_instances d)) with
      | Raise e => Raise e
      | Return binary_sensors =>
          Return {| api_base_url := get_base_url api_client;
                    api_timeout := get_timeout api_client;
                    api_is_connected := is_connected api_client;
                    device_id := _device_id d;
                    device_name := _name d;
                    device_catalog := _catalog d;
                    device_given_name := _given_name d;
                    device_model := _device_model d;
                    device_firmware := _firmware d;
                    device_manufacturer := _manufacturer d;
                    device_online := online;
                    capabilities := capabilities;
                    switches := switches;
                    sensors := sensors;
                    binary_sensors := binary_sensors |}
      end
  end.

Definition dump_sensor_line (s : SensorInfo) : string :=
  "        - " +:+ sensor_description s +:+ ": " +:+ py_str (sensor_state s) +:+ nl.

(** [dump] *)
Definition dump (d : ImouDevice) : Outcome string :=
  match get_diagnostics d with
  | Raise e => Raise e
  | Return data =>
      Return
        ("- Device ID: " +:+ py_str (device_id data) +:+ nl
         +:+ "    Name: " +:+ py_str (device_name data) +:+ nl
         +:+ "    Catalog: " +:+ py_str (device_catalog data) +:+ nl
         +:+ "    Model: " +:+ py_str (device_model data) +:+ nl
         +:+ "    Firmware: " +:+ py_str (device_firmware data) +:+ nl
         +:+ "    Online: " +:+ device_online data +:+ nl
         +:+ "    Capabilities: " +:+ nl
         +:+ String.concat EmptyString
              ((fun c => "        - " +:+ capability_description c +:+ nl)
                 <$> capabilities data)
         +:+ "    Switches: " +:+ nl
         +:+ String.concat EmptyString (dump_sensor_line <$> switches data)
         +:+ "    Sensors: " +:+ nl
         +:+ String.concat EmptyString (dump_sensor_line <$> sensors data)
         +:+ "    Binary Sensors: " +:+ nl
         +:+ String.concat EmptyString (dump_sensor_line <$> binary_sensors data))
  end.

(** *** Calls to the collaborators: each is logged, then answered. *)

Definition deviceBaseDetailList (ids : list json)
    : M (list Event) (gmap string json) :=
  fun log =>
    (async_api_deviceBaseDetailList api_client log ids,
     log ++ [CallDeviceBaseDetailList ids]).

Definition deviceOnline (id : json) : M (list Event) (gmap string json) :=
  fun log =>
    (async_api_deviceOnline api_client log id, log ++ [CallDeviceOnline id]).

Definition deviceBaseList : M (list Event) (gmap string json) :=
  fun log => (async_api_deviceBaseList api_client log, log ++ [CallDeviceBaseList]).

(** Modelled from the spec: [device_entity.py] is not part of the sources
    at hand.  An entity's asynchronous update refreshes its state through
    the API client and marks it fresh; an exception raised on the way
    propagates and leaves the entity as it was. *)
Definition async_update (e : ImouEntity) : M (list Event) ImouEntity :=
  fun log =>
    match entity_refresh api_client log e with
    | Return state =>
        (Return {| entity_class := entity_class e;
                   entity_device_id := entity_device_id e;
                   entity_device_name := entity_device_name e;
                   entity_name := entity_name e;
                   entity_state := state;
                   entity_enabled := entity_enabled e;
                   entity_updated := true |},
         log ++ [CallEntityUpdate e])
    | Raise x => (Raise x, log ++ [CallEntityUpdate e])
    end.

(** *** Methods that read and write [self] *)

Definition get_self : M (ImouDevice * list Event) ImouDevice :=
  fun s => (Return s.1, s).

Definition update (f : ImouDevice -> ImouDevice) : M (ImouDevice * list Event) unit :=
  fun s => (Return tt, (f s.1, s.2)).

Definition on_log {A} (m : M (list Event) A) : M (ImouDevice * list Event) A :=
  fun s => let (r, log) := m s.2 in (r, (s.1, log)).

(** The inner loop of [async_initialize]: the first capability equal to
    [switch_type] up to case adds the switch and ends the loop. *)
Fixpoint match_capability (switch_type : string) (capabilities : list string)
    (d : ImouDevice) : ImouDevice :=
  match capabilities with
  | [] => d
  | capability :: rest =>
      if String.eqb (Py.lower unicode_lower switch_type) (Py.lower unicode_lower capability) then
        append_switch
          (ImouSwitch (_device_id d) (get_name d) switch_type)
          (set_switches (_switches d ++ [switch_type]) d)
      else match_capability switch_type rest d
  end.

(** The outer loop, over [IMOU_SWITCHES.keys()]. *)
Fixpoint add_switches (switches_keys : list string) (d : ImouDevice) : ImouDevice :=
  match switches_keys with
  | [] => d
  | switch_type :: rest =>
      add_switches rest (match_capability switch_type (_capabilities d) d)
  end.

(** [if "motionDetect" not in self._capabilities: ...append("motionDetect")] *)
Definition force_motion_detect (d : ImouDevice) : ImouDevice :=
  if negb (Py.contains "motionDetect" (_capabilities d)) then
    set_capabilities (_capabilities d ++ ["motionDetect"]) d
  else d.

(** The body of the [try] block of [async_initialize]. *)
Definition parse_device_data (device_data : json) : M (ImouDevice * list Event) unit :=
  (catalog <- lift (Py.getitem device_data "catalog") ;;
   update (set_catalog catalog) ;;;
   version <- lift (Py.getitem device_data "version") ;;
   update (set_firmware version) ;;;
   name <- lift (Py.getitem device_data "name") ;;
   update (set_vendor_name name) ;;;
   device_model <- lift (Py.getitem device_data "deviceModel") ;;
   update (set_device_model device_model) ;;;
   status <- lift (Py.getitem device_data "status") ;;
   update (set_online (Py.eq_str status "online")) ;;;
   ability <- lift (Py.getitem device_data "ability") ;;
   capabilities <- lift (Py.split_method ability) ;;
   update (set_capabilities capabilities) ;;;
   update force_motion_detect ;;;
   update (add_switches (keys (IMOU_SWITCHES const))) ;;;
   update (fun d => append_sensor (ImouSensor (_device_id d) (get_name d) "lastAlarm") d) ;;;
   update (fun d =>
             append_binary_sensor
               (ImouBinarySensor (_device_id d) (get_name d) "online") d))%py.

(** The device as a [try] block that ran to its end leaves it, given the
    six fields it read ([ability] already known to be a [str]).  Used to
    state what a successful [async_initialize] did;
    [parse_device_data_Return] relates it to [parse_device_data]. *)
Definition populated (catalog version name device_model status : json)
    (ability : string) (d : ImouDevice) : ImouDevice :=
  let d := set_catalog catalog d in
  let d := set_firmware version d in
  let d := set_vendor_name name d in
  let d := set_device_model device_model d in
  let d := set_online (Py.eq_str status "online") d in
  let d := set_capabilities (Py.split ","%char ability) d in
  let d := force_motion_detect d in
  let d := add_switches (keys (IMOU_SWITCHES const)) d in
  let d := append_sensor (ImouSensor (_device_id d) (get_name d) "lastAlarm") d in
  append_binary_sensor (ImouBinarySensor (_device_id d) (get_name d) "online") d.

(** [async_initialize].  The two debug lines evaluate [self.to_string()]
    and [self.dump()] before logging; only the second can raise. *)
Definition async_initialize : M (ImouDevice * list Event) unit :=
  (self <- get_self ;;
   device_array <- on_log (deviceBaseDetailList [_device_id self]) ;;
   match device_array !! "deviceList" with
   | None => raise InvalidResponse
   | Some device_list =>
       n <- lift (Py.len device_list) ;;
       if negb (n =? 1)%nat then raise InvalidResponse
       else
         device_data <- lift (Py.first device_list) ;;
         try_except (parse_device_data device_data)
           (fun _ => raise InvalidResponse) ;;;
         self <- get_self ;;
         _ <- lift (dump self) ;;
         update (set_initialized true)
   end)%py.

(** The loop over one platform's list in [async_get_data]: entities are
    updated one after the other; the first exception ends the loop, with
    the entities before it updated and the rest untouched. *)
Fixpoint update_instances (sensor_instances_array : list ImouEntity)
    (log : list Event) : Outcome unit * (list ImouEntity * list Event) :=
  match sensor_instances_array with
  | [] => (Return tt, ([], log))
  | sensor_instance :: rest =>
      match async_update sensor_instance log with
      | (Raise x, log') => (Raise x, (sensor_instance :: rest, log'))
      | (Return updated, log') =>
          match update_instances rest log' with
          | (r, (rest', log'')) => (r, (updated :: rest', log''))
          end
      end
  end.

Definition update_switch : M (ImouDevice * list Event) unit :=
  fun s =>
    let si := _sensor_instances s.1 in
    match update_instances (switch si) s.2 with
    | (r, (l, log)) =>
        (r, (set_sensor_instances
               {| switch := l; sensor := sensor si;
                  binary_sensor := binary_sensor si |} s.1, log))
    end.

Definition update_sensor : M (ImouDevice * list Event) unit :=
  fun s =>
    let si := _sensor_instances s.1 in
    match update_instances (sensor si) s.2 with
    | (r, (l, log)) =>
        (r, (set_sensor_instances
               {| switch := switch si; sensor := l;
                  binary_sensor := binary_sensor si |} s.1, log))
    end.

Definition update_binary_sensor : M (ImouDevice * list Event) unit :=
  fun s =>
    let si := _sensor_instances s.1 in
    match update_instances (binary_sensor si) s.2 with
    | (r, (l, log)) =>
        (r, (set_sensor_instances
               {| switch := switch si; sensor := sensor si;
                  binary_sensor := l |} s.1, log))
    end.

(** [async_get_data] *)
Definition async_get_data : M (ImouDevice * list Event) bool :=
  (self <- get_self ;;
   if negb (_enabled self) then ret false
   else
     (if negb (_initialized self) then async_initialize else ret tt) ;;;
     self <- get_self ;;
     data <- on_log (deviceOnline (_device_id self)) ;;
     match data !! "onLine" with
     | None => raise InvalidResponse
     | Some on_line =>
         update (set_online (Py.eq_str on_line "1")) ;;;
         self <- get_self ;;
         (if _online self then
            update_switch ;;; update_sensor ;;; update_binary_sensor
          else ret tt) ;;;
         ret true
     end)%py.

(** ** [ImouDiscoverService] *)

(** One turn of the loop of [async_discover_devices], up to the
    initialized device. *)
Definition discover_device (device_data : json) : M (list Event) ImouDevice :=
  (device_id <- lift (Py.getitem device_data "deviceId") ;;
   fun log =>
     match async_initialize (init device_id, log) with
     | (Return _, (device, log')) => (Return device, log')
     | (Raise e, (_, log')) => (Raise e, log')
     end)%py.

Fixpoint discover_loop (device_list : list json) (devices : gmap string ImouDevice)
    : M (list Event) (gmap string ImouDevice) :=
  match device_list with
  | [] => ret devices
  | device_data :: rest =>
      (device <- discover_device device_data ;;
       discover_loop rest (<[py_str (get_name device) := device]> devices))%py
  end.

(** The devices the loop initializes, in the order of the response. *)
Fixpoint discover_all (device_list : list json) : M (list Event) (list ImouDevice) :=
  match device_list with
  | [] => ret []
  | device_data :: rest =>
      (device <- discover_device device_data ;;
       devices <- discover_all rest ;;
       ret (device :: devices))%py
  end.

(** [async_discover_devices] *)
Definition async_discover_devices : M (list Event) (gmap string ImouDevice) :=
  (devices_data <- deviceBaseList ;;
   match devices_data !! "deviceList", devices_data !! "count" with
   | Some device_list, Some _ =>
       entries <- lift (Py.iter device_list) ;;
       discover_loop entries ∅
   | _, _ => raise InvalidResponse
   end)%py.

End Device.

(** ** Vocabulary of the statements *)

(** The six fields [async_initialize] reads from the entry, when the entry
    is an object that has them all and "ability" is a string. *)
Definition read_entry (device_data : json)
    : option (json * json * json * json * json * string) :=
  match device_data with
  | JDict fields =>
      match fields !! "catalog", fields !! "version", fields !! "name",
            fields !! "deviceModel", fields !! "status", fields !! "ability" with
      | Some catalog, Some version, Some name, Some device_model, Some status,
        Some (JStr ability) =>
          Some (catalog, version, name, device_model, status, ability)
      | _, _, _, _, _, _ => None
      end
  | _ => None
  end.

(** What every step of [async_initialize] before the last leaves alone. *)
Definition same_lifecycle (d d' : ImouDevice) : Prop :=
  _device_id d' = _device_id d /\ _given_name d' = _given_name d /\
  _initialized d' = _initialized d /\ _enabled d' = _enabled d.

(** The capability list [async_initialize] stores for an "ability" string. *)
Definition capabilities_of (ability : string) : list string :=
  let capabilities := Py.split ","%char ability in
  if Py.contains "motionDetect" capabilities then capabilities
  else capabilities ++ ["motionDetect"].

(** The name an initialization passes to the entities it builds. *)
Definition name_after (name : json) (d : ImouDevice) : json :=
  get_name (set_vendor_name name d).

(** The switches created for a capability list: one per matching key of
    [IMOU_SWITCHES], in the order of the keys. *)
Definition created_switches (unicode_lower : string -> string) (const : Const)
    (device_id device_name : json) (capabilities : list string) : list ImouEntity :=
  ImouSwitch device_id device_name <$>
    filter (fun t => matches unicode_lower t capabilities) (keys (IMOU_SWITCHES const)).

(** The name a device is filed under by discovery: [f"{device.get_name()}"]. *)
Definition display_name (py_repr : json -> string) (device : ImouDevice) : string :=
  py_str py_repr (get_name device).

(** The [dict] built by assigning the devices one after the other. *)
Definition assign_all (py_repr : json -> string) (devices : gmap string ImouDevice)
    (l : list ImouDevice) : gmap string ImouDevice :=
  foldl (fun m device => <[display_name py_repr device := device]> m) devices l.

(** The entities whose update a log records, in the order of the calls. *)
Fixpoint updates_of (log : list Event) : list ImouEntity :=
  match log with
  | [] => []
  | CallEntityUpdate e :: rest => e :: updates_of rest
  | _ :: rest => updates_of rest
  end.

(** ** Vocabulary of the further properties *)

(** What names an entity: its class, its device and its capability. *)
Definition identity (e : ImouEntity) : EntityClass * json * string :=
  (entity_class e, entity_device_id e, entity_name e).

(** The same entities, list by list, whatever their states. *)
Definition same_entities (d d' : ImouDevice) : Prop :=
  identity <$> switch (_sensor_instances d') = identity <$> switch (_sensor_instances d) /\
  identity <$> sensor (_sensor_instances d') = identity <$> sensor (_sensor_instances d) /\
  identity <$> binary_sensor (_sensor_instances d') =
    identity <$> binary_sensor (_sensor_instances d).

(** Everything of a device but its online flag and its entities. *)
Definition same_details (d d' : ImouDevice) : Prop :=
  _device_id d' = _device_id d /\ _catalog d' = _catalog d /\
  _firmware d' = _firmware d /\ _name d' = _name d /\
  _given_name d' = _given_name d /\ _device_model d' = _device_model d /\
  _manufacturer d' = _manufacturer d /\ _capabilities d' = _capabilities d /\
  _switches d' = _switches d /\ _initialized d' = _initialized d /\
  _enabled d' = _enabled d.

(** Every list of [_sensor_instances] holds entities of its own class. *)
Definition sorted_by_class (d : ImouDevice) : Prop :=
  Forall (fun e => entity_class e = SwitchClass) (switch (_sensor_instances d)) /\
  Forall (fun e => entity_class e = SensorClass) (sensor (_sensor_instances d)) /\
  Forall (fun e => entity_class e = BinarySensorClass)
    (binary_sensor (_sensor_instances d)).

(** [_switches] lists the names of the switch entities, in order. *)
Definition switches_in_step (d : ImouDevice) : Prop :=
  _switches d = entity_name <$> switch (_sensor_instances d).

(** Every sensor and binary sensor has its description in its table. *)
Definition describable (const : Const) (d : ImouDevice) : Prop :=
  Forall (fun e => table_has (SENSORS const) (entity_name e) = true)
    (sensor (_sensor_instances d)) /\
  Forall (fun e => table_has (BINARY_SENSORS const) (entity_name e) = true)
    (binary_sensor (_sensor_instances d)).

(** The detail request [async_initialize] makes for a listed device. *)
Definition detail_request (device_id : json) : Event :=
  CallDeviceBaseDetailList [device_id].

#[global] Instance EntityClass_eq_dec : EqDecision EntityClass :=
  ltac:(solve_decision).



(** ** Concrete collaborators

    A small installation on which the statements below are exercised: the
    tables, an API client answering from fixed data, and a camera. *)
Module Fixture.

Definition repr (v : json) : string := "<value>".

(** Every string of the installation is ASCII: the lower-casing of other
    strings is never asked for. *)
Definition no_unicode (s : string) : string := s.

Definition const : Const :=
  {| BINARY_SENSORS := [("online", "Online")];
     IMOU_CAPABILITIES :=
       [("WLAN", "Wi-Fi"); ("MotionDetect", "Motion detection")];
     IMOU_SWITCHES :=
       [("localRecord", "Local record"); ("motionDetect", "Motion detect");
        ("closeCamera", "Close camera")];
     SENSORS := [("lastAlarm", "Last alarm")] |}.

Definition entry (name device_model ability : string) : json :=
  JDict (list_to_map
           [("deviceId", JStr "X1"); ("catalog", JStr "IPC");
            ("version", JStr "2.680"); ("name", JStr name);
            ("deviceModel", JStr device_model); ("status", JStr "online");
            ("ability", JStr ability)]).

Definition detail (entries : list json) : Outcome (gmap string json) :=
  Return {[ "deviceList" := JList entries ]}.

Definition on_line (value : string) : Outcome (gmap string json) :=
  Return {[ "onLine" := JStr value ]}.

(** A client that answers every detail request with [details], every
    online request with [online], the list request with two devices "A"
    and "B", and every entity refresh with [refresh]. *)
Definition client (details online : Outcome (gmap string json))
    (refresh : Outcome json) : ImouAPIClient :=
  {| get_base_url := "https://openapi.easy4ip.com/openapi";
     get_timeout := 10;
     is_connected := true;
     async_api_deviceBaseDetailList := fun _ _ => details;
     async_api_deviceOnline := fun _ _ => online;
     async_api_deviceBaseList := fun _ =>
       Return (list_to_map
                 [("count", JInt 2);
                  ("deviceList",
                   JList [JDict {[ "deviceId" := JStr "A" ]};
                          JDict {[ "deviceId" := JStr "B" ]}])]);
     entity_refresh := fun _ _ => refresh |}.

(** A camera that reports [ability]; it is online and its entities
    refresh to "on". *)
Definition camera_client (ability : string) : ImouAPIClient :=
  client (detail [entry "Cam" "IPC-C22" ability]) (on_line "1") (Return (JStr "on")).

(** The same camera, every entity refresh failing. *)
Definition failing_refresh_client : ImouAPIClient :=
  client (detail [entry "Cam" "IPC-C22" "WLAN,LocalRecord"]) (on_line "1")
    (Raise InvalidResponse).

(** Two registered devices, "A" and "B", both named "Cam" by the vendor;
    the model tells them apart. *)
Definition twin_client : ImouAPIClient :=
  {| get_base_url := "https://openapi.easy4ip.com/openapi";
     get_timeout := 10;
     is_connected := true;
     async_api_deviceBaseDetailList := fun _ ids =>
       match ids with
       | [JStr "A"] => detail [entry "Cam" "model-of-A" "WLAN"]
       | _ => detail [entry "Cam" "model-of-B" "WLAN"]
       end;
     async_api_deviceOnline := fun _ _ => on_line "1";
     async_api_deviceBaseList := async_api_deviceBaseList (camera_client "WLAN");
     entity_refresh := fun _ _ => Return (JStr "on") |}.

(** Clients whose detail answer [async_initialize] must refuse. *)
Definition no_list_client : ImouAPIClient :=
  client (Return ∅) (on_line "1") (Return (JStr "on")).

Definition no_entry_client : ImouAPIClient :=
  client (detail []) (on_line "1") (Return (JStr "on")).

Definition two_entries_client : ImouAPIClient :=
  client (detail [entry "Cam" "IPC-C22" "WLAN"; entry "Cam" "IPC-C22" "WLAN"])
    (on_line "1") (Return (JStr "on")).

Definition missing_field_client : ImouAPIClient :=
  client (detail [JDict {[ "catalog" := JStr "IPC" ]}]) (on_line "1")
    (Return (JStr "on")).

Definition not_an_object_client : ImouAPIClient :=
  client (detail [JStr "oops"]) (on_line "1") (Return (JStr "on")).

(** The camera reported offline, and an online answer without "onLine". *)
Definition offline_client : ImouAPIClient :=
  client (detail [entry "Cam" "IPC-C22" "WLAN,LocalRecord"]) (on_line "0")
    (Return (JStr "on")).

Definition no_onLine_client : ImouAPIClient :=
  client (detail [entry "Cam" "IPC-C22" "WLAN,LocalRecord"]) (Return ∅)
    (Return (JStr "on")).

Definition camera : ImouDevice := init (JStr "X1").

(** The camera after one [async_initialize] against [api_client]. *)
Definition initialized_camera (api_client : ImouAPIClient) : ImouDevice :=
  (async_initialize repr no_unicode const api_client (camera, [])).2.1.

(** The camera after a second [async_initialize]. *)
Definition twice_initialized_camera (api_client : ImouAPIClient) : ImouDevice :=
  (async_initialize repr no_unicode const api_client (initialized_camera api_client, [])).2.1.

(** The two devices of [twin_client], as discovery initializes them. *)
Definition device_A : ImouDevice :=
  (async_initialize repr no_unicode const twin_client (init (JStr "A"), [])).2.1.

Definition device_B : ImouDevice :=
  (async_initialize repr no_unicode const twin_client (init (JStr "B"), [])).2.1.

(** The tables without a description for "lastAlarm". *)
Definition const_without_lastAlarm : Const :=
  {| BINARY_SENSORS := BINARY_SENSORS const;
     IMOU_CAPABILITIES := IMOU_CAPABILITIES const;
     IMOU_SWITCHES := IMOU_SWITCHES const;
     SENSORS := [] |}.

(** Detail answers whose "deviceList" is not a list. *)
Definition object_list_client : ImouAPIClient :=
  client (Return {[ "deviceList" := JDict {[ "X1" := entry "Cam" "IPC-C22" "WLAN" ]} ]})
    (on_line "1") (Return (JStr "on")).

Definition number_list_client : ImouAPIClient :=
  client (Return {[ "deviceList" := JInt 1 ]}) (on_line "1") (Return (JStr "on")).

(** An online answer that says 1 as a number. *)
Definition numeric_onLine_client : ImouAPIClient :=
  client (detail [entry "Cam" "IPC-C22" "WLAN,LocalRecord"])
    (Return {[ "onLine" := JInt 1 ]}) (Return (JStr "on")).

(** A list answer without "count". *)
Definition no_count_client : ImouAPIClient :=
  {| get_base_url := get_base_url twin_client;
     get_timeout := get_timeout twin_client;
     is_connected := is_connected twin_client;
     async_api_deviceBaseDetailList := async_api_deviceBaseDetailList twin_client;
     async_api_deviceOnline := async_api_deviceOnline twin_client;
     async_api_deviceBaseList := fun _ =>
       Return {[ "deviceList" := JList [JDict {[ "deviceId" := JStr "A" ]}] ]};
     entity_refresh := entity_refresh twin_client |}.

(** Three registered devices "A", "B" and "C"; the details of "B" come
    back empty. *)
Definition second_fails_client : ImouAPIClient :=
  {| get_base_url := get_base_url twin_client;
     get_timeout := get_timeout twin_client;
     is_connected := is_connected twin_client;
     async_api_deviceBaseDetailList := fun _ ids =>
       match ids with
       | [JStr "B"] => Return ∅
       | _ => detail [entry "Cam" "IPC-C22" "WLAN"]
       end;
     async_api_deviceOnline := async_api_deviceOnline twin_client;
     async_api_deviceBaseList := fun _ =>
       Return (list_to_map
                 [("count", JInt 3);
                  ("deviceList",
                   JList [JDict {[ "deviceId" := JStr "A" ]};
                          JDict {[ "deviceId" := JStr "B" ]};
                          JDict {[ "deviceId" := JStr "C" ]}])]);
     entity_refresh := entity_refresh twin_client |}.

(** The camera, renamed by its owner before it is initialized. *)
Definition porch_camera : ImouDevice := set_name "Porch" camera.

(** A camera whose firmware spells one capability with the Kelvin sign
    (U+212A, in UTF-8 the bytes E2 84 AA) in place of the letter K: Python
    lower-cases that sign to "k", so the capability equals "linkDevAlarm"
    up to case. *)
Definition kelvin_sign : string :=
  String (ascii_of_nat 226) (String (ascii_of_nat 132)
    (String (ascii_of_nat 170) EmptyString)).

Definition kelvin_ability : string := "lin" +:+ kelvin_sign +:+ "DevAlarm".

(** Python's lower-casing on the one string of that installation that is
    not ASCII: [kelvin_ability.lower() == "linkdevalarm"]. *)
Definition kelvin_lower (s : string) : string :=
  if String.eqb s kelvin_ability then "linkdevalarm" else s.

(** The tables of an installation that knows the switch "linkDevAlarm". *)
Definition const_with_linkDevAlarm : Const :=
  {| BINARY_SENSORS := BINARY_SENSORS const;
     IMOU_CAPABILITIES := IMOU_CAPABILITIES const;
     IMOU_SWITCHES := [("linkDevAlarm", "Link device alarm")];
     SENSORS := SENSORS const |}.

End Fixture.

(** * Properties *)

#[local] Arguments String.eqb : simpl never.
#[local] Arguments Py.contains : simpl never.
#[local] Arguments Py.split : simpl never.
#[local] Arguments Py.lower : simpl never.
#[local] Arguments matches : simpl never.

(** ** The monad *)

Lemma bind_Return {S A B} (m : M S A) (k : A -> M S B) s b s' :
  bind m k s = (Return b, s') ->
  exists a s1, m s = (Return a, s1) /\ k a s1 = (Return b, s').
Proof.
  unfold bind. destruct (m s) as [[a|e] s1]; intros H; [eauto | discriminate].
Qed.

Lemma bind_Raise {S A B} (m : M S A) (k : A -> M S B) s e s' :
  bind m k s = (Raise e, s') ->
  m s = (Raise e, s') \/ exists a s1, m s = (Return a, s1) /\ k a s1 = (Raise e, s').
Proof.
  unfold bind. destruct (m s) as [[a|e0] s1]; intros H; [right; eauto | left; congruence].
Qed.

Lemma bind_eq_Return {S A B} (m : M S A) (k : A -> M S B) s a s1 :
  m s = (Return a, s1) -> bind m k s = k a s1.
Proof. unfold bind. by intros ->. Qed.

Lemma bind_eq_Raise {S A B} (m : M S A) (k : A -> M S B) s e s1 :
  m s = (Raise e, s1) -> bind m k s = (Raise e, s1).
Proof. unfold bind. by intros ->. Qed.

Section SwitchLoop.
Variable py_repr : json -> string.
Variable unicode_lower : string -> string.
Variable const : Const.
Variable api_client : ImouAPIClient.

Lemma matches_spec switch_type capabilities :
  matches unicode_lower switch_type capabilities = true <->
  exists capability,
    capability ∈ capabilities /\ Py.lower unicode_lower switch_type = Py.lower unicode_lower capability.
Proof.
  unfold matches. rewrite existsb_exists. split.
  - intros (c & Hin & Heq). exists c. split; [by apply list_elem_of_In|].
    by apply String.eqb_eq.
  - intros (c & Hin & Heq). exists c. split; [by apply list_elem_of_In|].
    by apply String.eqb_eq.
Qed.

(** The inner loop adds the switch exactly when some capability matches. *)
Lemma match_capability_spec switch_type capabilities d :
  match_capability unicode_lower switch_type capabilities d =
  if matches unicode_lower switch_type capabilities then
    append_switch (ImouSwitch (_device_id d) (get_name d) switch_type)
      (set_switches (_switches d ++ [switch_type]) d)
  else d.
Proof.
  induction capabilities as [|c cs IH]; [done|].
  unfold matches in *. cbn [match_capability existsb].
  destruct (String.eqb (Py.lower unicode_lower switch_type) (Py.lower unicode_lower c)); [done|].
  exact IH.
Qed.

(** What one turn of the outer loop leaves alone. *)
Lemma match_capability_frame switch_type capabilities d :
  let d' := match_capability unicode_lower switch_type capabilities d in
  _device_id d' = _device_id d /\ _catalog d' = _catalog d /\
  _firmware d' = _firmware d /\ _name d' = _name d /\
  _given_name d' = _given_name d /\ _device_model d' = _device_model d /\
  _manufacturer d' = _manufacturer d /\ _online d' = _online d /\
  _capabilities d' = _capabilities d /\ _initialized d' = _initialized d /\
  _enabled d' = _enabled d /\
  sensor (_sensor_instances d') = sensor (_sensor_instances d) /\
  binary_sensor (_sensor_instances d') = binary_sensor (_sensor_instances d).
Proof.
  cbn zeta. rewrite match_capability_spec.
  by destruct (matches unicode_lower switch_type capabilities).
Qed.

Lemma add_switches_frame switches_keys d :
  let d' := add_switches unicode_lower switches_keys d in
  _device_id d' = _device_id d /\ _catalog d' = _catalog d /\
  _firmware d' = _firmware d /\ _name d' = _name d /\
  _given_name d' = _given_name d /\ _device_model d' = _device_model d /\
  _manufacturer d' = _manufacturer d /\ _online d' = _online d /\
  _capabilities d' = _capabilities d /\ _initialized d' = _initialized d /\
  _enabled d' = _enabled d /\
  sensor (_sensor_instances d') = sensor (_sensor_instances d) /\
  binary_sensor (_sensor_instances d') = binary_sensor (_sensor_instances d).
Proof.
  cbn zeta. revert d. induction switches_keys as [|t ks IH]; intros d; [done|].
  cbn [add_switches].
  pose proof (match_capability_frame t (_capabilities d) d) as F. cbn zeta in F.
  specialize (IH (match_capability unicode_lower t (_capabilities d) d)).
  destruct_and!. repeat split; congruence.
Qed.

(** The switches the outer loop creates: one per key that matches, in the
    order of the keys. *)
Lemma add_switches_switch switches_keys d :
  switch (_sensor_instances (add_switches unicode_lower switches_keys d)) =
  switch (_sensor_instances d) ++
    (ImouSwitch (_device_id d) (get_name d) <$>
       filter (fun t => matches unicode_lower t (_capabilities d)) switches_keys).
Proof.
  revert d. induction switches_keys as [|t ks IH]; intros d.
  { cbn. by rewrite app_nil_r. }
  cbn [add_switches]. rewrite IH.
  pose proof (match_capability_frame t (_capabilities d) d) as F. cbn zeta in F.
  destruct F as (Hid & _ & _ & Hn & Hg & _ & _ & _ & Hc & _).
  rewrite Hc, Hid. unfold get_name. rewrite Hn, Hg.
  rewrite match_capability_spec, filter_cons.
  case_decide as Hd; destruct (matches unicode_lower t (_capabilities d)); try done.
  cbn. by rewrite <- app_assoc.
Qed.
End SwitchLoop.

Section TryBlock.
Variable py_repr : json -> string.
Variable unicode_lower : string -> string.
Variable const : Const.
Variable api_client : ImouAPIClient.

Lemma populated_lifecycle catalog version name device_model status ability d :
  same_lifecycle d (populated unicode_lower const catalog version name device_model status ability d).
Proof.
  unfold populated, same_lifecycle. cbn zeta.
  match goal with |- context [add_switches _ ?ks ?x] =>
    pose proof (add_switches_frame unicode_lower ks x) as F; cbn zeta in F end.
  destruct F as (Hid & _ & _ & _ & Hg & _ & _ & _ & _ & Hi & He & _).
  cbn. rewrite Hid, Hg, Hi, He. unfold force_motion_detect.
  by destruct (negb _).
Qed.

(** The [try] block either runs to its end on an entry that has the six
    fields, or raises on the first one it cannot read. *)
Lemma parse_device_data_Return device_data d log :
  match read_entry device_data with
  | Some (catalog, version, name, device_model, status, ability) =>
      parse_device_data unicode_lower const device_data (d, log) =
      (Return tt,
       (populated unicode_lower const catalog version name device_model status ability d, log))
  | None =>
      exists e d',
        parse_device_data unicode_lower const device_data (d, log) = (Raise e, (d', log)) /\
        same_lifecycle d d' /\ _sensor_instances d' = _sensor_instances d
  end.
Proof.
  unfold read_entry.
  destruct device_data as [| | | |items|fields];
    try (by exists TypeError, d).
  unfold parse_device_data, bind, lift, update, Py.getitem. cbn.
  repeat (case_match; try (eexists _, _; split; [reflexivity|done])); try done.
  unfold Py.split_method in *. simplify_eq. reflexivity.
Qed.
End TryBlock.

Section InitializeCases.
Variable py_repr : json -> string.
Variable unicode_lower : string -> string.
Variable const : Const.
Variable api_client : ImouAPIClient.

(** [async_initialize], one case per way it can end. *)
Lemma async_initialize_unfold d log :
  async_initialize py_repr unicode_lower const api_client (d, log) =
  let log1 := log ++ [CallDeviceBaseDetailList [_device_id d]] in
  match async_api_deviceBaseDetailList api_client log [_device_id d] with
  | Raise e => (Raise e, (d, log1))
  | Return device_array =>
      match device_array !! "deviceList" with
      | None => (Raise InvalidResponse, (d, log1))
      | Some device_list =>
          match Py.len device_list with
          | Raise e => (Raise e, (d, log1))
          | Return n =>
              if negb (n =? 1)%nat then (Raise InvalidResponse, (d, log1))
              else
                match Py.first device_list with
                | Raise e => (Raise e, (d, log1))
                | Return device_data =>
                    match parse_device_data unicode_lower const device_data (d, log1) with
                    | (Raise _, s) => (Raise InvalidResponse, s)
                    | (Return _, (d1, log2)) =>
                        match dump py_repr const api_client d1 with
                        | Raise e => (Raise e, (d1, log2))
                        | Return _ => (Return tt, (set_initialized true d1, log2))
                        end
                    end
                end
          end
      end
  end.
Proof.
  unfold async_initialize, bind, get_self, on_log, deviceBaseDetailList, lift,
    raise, try_except, update. cbn.
  repeat (case_match; simplify_eq/=; try done).
Qed.

(** A successful [async_initialize] read a one-element "deviceList" whose
    entry has the six fields, and left the device [populated] from them
    and marked initialized. *)
Lemma async_initialize_Return d log r d' log' :
  async_initialize py_repr unicode_lower const api_client (d, log) = (Return r, (d', log')) ->
  exists device_array device_list device_data
         catalog version name device_model status ability,
    async_api_deviceBaseDetailList api_client log [_device_id d] = Return device_array /\
    device_array !! "deviceList" = Some device_list /\
    Py.len device_list = Return 1%nat /\
    Py.first device_list = Return device_data /\
    read_entry device_data =
      Some (catalog, version, name, device_model, status, ability) /\
    d' = set_initialized true
           (populated unicode_lower const catalog version name device_model status ability d) /\
    log' = log ++ [CallDeviceBaseDetailList [_device_id d]].
Proof.
  rewrite async_initialize_unfold. cbn zeta.
  destruct (async_api_deviceBaseDetailList _ _ _) as [device_array|] eqn:Ha; [|done].
  destruct (device_array !! "deviceList") as [device_list|] eqn:Hl; [|done].
  destruct (Py.len device_list) as [n|] eqn:Hlen; [|done].
  destruct (n =? 1)%nat eqn:Hn; [|done]. apply Nat.eqb_eq in Hn as ->. cbn [negb].
  destruct (Py.first device_list) as [device_data|] eqn:Hf; [|done].
  pose proof (parse_device_data_Return unicode_lower const device_data d
                (log ++ [CallDeviceBaseDetailList [_device_id d]])) as Hp.
  destruct (read_entry device_data) as [[[[[[c v] n] m] st] ab]|] eqn:Hr.
  - rewrite Hp. destruct (dump _ _ _ _); [|done].
    intros [= <- <-]. by eexists _, _, _, c, v, n, m, st, ab.
  - destruct Hp as (e & d1 & -> & _). done.
Qed.

(** A failed [async_initialize] leaves the lifecycle flags as they were. *)
Lemma async_initialize_Raise d log e d' log' :
  async_initialize py_repr unicode_lower const api_client (d, log) = (Raise e, (d', log')) ->
  same_lifecycle d d'.
Proof.
  rewrite async_initialize_unfold. cbn zeta.
  repeat (case_match; simplify_eq/=; try done);
    try (intros; simplify_eq; done).
  all: match goal with
       | H : parse_device_data _ _ ?v (?x, ?l) = _ |- _ =>
           pose proof (parse_device_data_Return unicode_lower const v x l) as Hp;
           destruct (read_entry v) as [[[[[[? ?] ?] ?] ?] ?]|];
           [ rewrite H in Hp | destruct Hp as (? & ? & Hp & ? & ?); rewrite H in Hp ]
       end; intros; simplify_eq; try done.
  apply populated_lifecycle.
Qed.
End InitializeCases.

Lemma contains_spec x l : Py.contains x l = true <-> x ∈ l.
Proof.
  unfold Py.contains. rewrite existsb_exists. split.
  - intros (y & Hin & Heq). apply String.eqb_eq in Heq as ->. by apply list_elem_of_In.
  - intros Hin. exists x. split; [by apply list_elem_of_In | apply String.eqb_refl].
Qed.

Lemma motionDetect_in_capabilities_of ability : "motionDetect" ∈ capabilities_of ability.
Proof.
  unfold capabilities_of. cbn zeta.
  destruct (Py.contains _ _) eqn:Hc.
  - by apply contains_spec.
  - apply elem_of_app. right. apply list_elem_of_singleton. done.
Qed.

(** Counting the entities of one name among entities built from names. *)
Lemma filter_name_fmap (mk : string -> ImouEntity) (names : list string) t :
  (forall n, entity_name (mk n) = n) ->
  length (filter (fun e => entity_name e = t) (mk <$> names)) =
  length (filter (fun n => n = t) names).
Proof.
  intros Hmk. induction names as [|n ns IH]; [done|].
  rewrite fmap_cons, !filter_cons, Hmk.
  case_decide; cbn; by rewrite IH.
Qed.

Lemma filter_eq_NoDup (l : list string) t :
  NoDup l ->
  length (filter (fun n => n = t) l) = if decide (t ∈ l) then 1%nat else 0%nat.
Proof.
  induction 1 as [|x l Hx Hnd IH]; [done|].
  rewrite filter_cons. destruct (decide (x = t)) as [->|Hxt].
  - cbn. rewrite IH. rewrite decide_False by done.
    rewrite decide_True by (apply list_elem_of_here). done.
  - rewrite IH. destruct (decide (t ∈ l)) as [Hin|Hin].
    + rewrite decide_True by (by apply list_elem_of_further). done.
    + rewrite decide_False; [done|]. intros [->|?]%elem_of_cons; done.
Qed.

Section Populated.
Variable py_repr : json -> string.
Variable unicode_lower : string -> string.
Variable const : Const.
Variable api_client : ImouAPIClient.

Lemma populated_capabilities catalog version name device_model status ability d :
  _capabilities (populated unicode_lower const catalog version name device_model status ability d)
  = capabilities_of ability.
Proof.
  unfold populated. cbn zeta.
  match goal with |- context [add_switches _ ?ks ?x] =>
    pose proof (add_switches_frame unicode_lower ks x) as F; cbn zeta in F end.
  destruct F as (_ & _ & _ & _ & _ & _ & _ & _ & Hc & _).
  cbn. rewrite Hc. unfold force_motion_detect, capabilities_of. cbn.
  by destruct (Py.contains _ _).
Qed.

Lemma populated_instances catalog version name device_model status ability d :
  let d' := populated unicode_lower const catalog version name device_model status ability d in
  let device_name := name_after name d in
  switch (_sensor_instances d') =
    switch (_sensor_instances d) ++
      created_switches unicode_lower const (_device_id d) device_name (capabilities_of ability) /\
  sensor (_sensor_instances d') =
    sensor (_sensor_instances d) ++ [ImouSensor (_device_id d) device_name "lastAlarm"] /\
  binary_sensor (_sensor_instances d') =
    binary_sensor (_sensor_instances d) ++
      [ImouBinarySensor (_device_id d) device_name "online"].
Proof.
  unfold populated, created_switches, name_after. cbn zeta.
  match goal with |- context [add_switches _ ?ks ?x] =>
    pose proof (add_switches_frame unicode_lower ks x) as F; cbn zeta in F;
    pose proof (add_switches_switch unicode_lower ks x) as Hs
  end.
  destruct F as (Hid & _ & _ & Hn & Hg & _ & _ & _ & Hc & _ & _ & Hse & Hb).
  cbn. unfold get_name at 2 4. cbn. rewrite Hs, Hid, Hn, Hg, Hse, Hb.
  assert (Hcaps : forall x, _capabilities (force_motion_detect
             (set_capabilities (Py.split ","%char ability) x)) = capabilities_of ability).
  { intros x. unfold force_motion_detect, capabilities_of. cbn.
    by destruct (Py.contains _ _). }
  rewrite Hcaps.
  assert (Hfr : forall x : ImouDevice,
             _device_id (force_motion_detect x) = _device_id x /\
             get_name (force_motion_detect x) = get_name x /\
             _name (force_motion_detect x) = _name x /\
             _given_name (force_motion_detect x) = _given_name x /\
             _sensor_instances (force_motion_detect x) = _sensor_instances x).
  { intros x. unfold force_motion_detect. by destruct (negb _). }
  repeat match goal with |- context [force_motion_detect ?x] =>
    let H := fresh in
    destruct (Hfr x) as (-> & -> & -> & -> & ->) end.
  done.
Qed.
End Populated.

Section Initialize.
Variable py_repr : json -> string.
Variable unicode_lower : string -> string.
Variable const : Const.
Variable api_client : ImouAPIClient.

(** What a successful call appended, and the capability list it stored. *)
Lemma async_initialize_appends d log r d' log' :
  async_initialize py_repr unicode_lower const api_client (d, log) = (Return r, (d', log')) ->
  exists ability device_name,
    _capabilities d' = capabilities_of ability /\
    _device_id d' = _device_id d /\
    _initialized d' = true /\
    switch (_sensor_instances d') =
      switch (_sensor_instances d) ++
        created_switches unicode_lower const (_device_id d) device_name (_capabilities d') /\
    sensor (_sensor_instances d') =
      sensor (_sensor_instances d) ++ [ImouSensor (_device_id d) device_name "lastAlarm"] /\
    binary_sensor (_sensor_instances d') =
      binary_sensor (_sensor_instances d) ++
        [ImouBinarySensor (_device_id d) device_name "online"].
Proof.
  intros (_ & _ & _ & c & v & n & m & st & ab & _ & _ & _ & _ & _ & -> & _)
    %async_initialize_Return.
  pose proof (populated_instances unicode_lower const c v n m st ab d) as (Hs & Hse & Hb).
  pose proof (populated_capabilities unicode_lower const c v n m st ab d) as Hc.
  destruct (populated_lifecycle unicode_lower const c v n m st ab d) as (Hid & _).
  exists ab, (name_after n d).
  unfold set_initialized.
  cbn [_capabilities _device_id _initialized _sensor_instances].
  by rewrite Hc.
Qed.

Lemma created_switches_count device_id device_name capabilities switch_type :
  NoDup (keys (IMOU_SWITCHES const)) ->
  switch_type ∈ keys (IMOU_SWITCHES const) ->
  length (filter (fun e => entity_name e = switch_type)
            (created_switches unicode_lower const device_id device_name capabilities)) =
  if matches unicode_lower switch_type capabilities then 1%nat else 0%nat.
Proof.
  intros Hnd Hin. unfold created_switches.
  rewrite filter_name_fmap by done.
  rewrite filter_eq_NoDup by (by apply NoDup_filter).
  destruct (matches unicode_lower switch_type capabilities) eqn:Hm.
  - rewrite decide_True; [done|]. apply list_elem_of_filter. by rewrite Hm.
  - rewrite decide_False; [done|]. intros [Hm' _]%list_elem_of_filter.
    by rewrite Hm in Hm'.
Qed.

(** C1.  Whatever "ability" string the API reports, with or without
    "motionDetect" in it, a successful [async_initialize] leaves
    "motionDetect" in the device's capability list. *)
Theorem motionDetect_after_async_initialize d log d' log' :
  async_initialize py_repr unicode_lower const api_client (d, log) = (Return tt, (d', log')) ->
  "motionDetect" ∈ _capabilities d'.
Proof.
  intros (ab & n & -> & _)%async_initialize_appends.
  apply motionDetect_in_capabilities_of.
Qed.

(** C2.  A successful [async_initialize] appends to the switch category,
    for every key of [IMOU_SWITCHES], one switch entity if some capability
    of the device equals the key up to case and none otherwise: never more
    than one per switch type, however many capabilities match, and nothing
    but switches of known types. *)
Theorem one_switch_per_matching_type d log d' log' :
  NoDup (keys (IMOU_SWITCHES const)) ->
  async_initialize py_repr unicode_lower const api_client (d, log) = (Return tt, (d', log')) ->
  exists created,
    switch (_sensor_instances d') = switch (_sensor_instances d) ++ created /\
    (forall e, e ∈ created ->
       entity_class e = SwitchClass /\ entity_name e ∈ keys (IMOU_SWITCHES const)) /\
    forall switch_type,
      switch_type ∈ keys (IMOU_SWITCHES const) ->
      let instantiated :=
        length (filter (fun e => entity_name e = switch_type) created) in
      (instantiated <= 1)%nat /\
      (instantiated = 1%nat <->
       exists capability,
         capability ∈ _capabilities d' /\
         Py.lower unicode_lower switch_type = Py.lower unicode_lower capability).
Proof.
  intros Hnd (ab & n & _ & _ & _ & Hs & _)%async_initialize_appends.
  eexists. split; [exact Hs|]. split.
  - intros e (t & -> & Ht)%list_elem_of_fmap. split; [done|].
    cbn. by apply list_elem_of_filter in Ht as [_ Ht].
  - intros t Ht. cbn zeta. rewrite created_switches_count by done.
    rewrite <- matches_spec.
    destruct (matches unicode_lower t (_capabilities d')); split; try lia; try done.
Qed.

(** C9.  [async_initialize] is not idempotent.  On a device that starts
    without entities, two successful calls leave two "lastAlarm" sensors,
    two "online" binary sensors, and two switches of every switch type
    that matched the capabilities on both calls: every successful call
    appends, none looks at what is already there. *)
Theorem async_initialize_twice d0 log0 d1 log1 log1' d2 log2 :
  NoDup (keys (IMOU_SWITCHES const)) ->
  _sensor_instances d0 = {| switch := []; sensor := []; binary_sensor := [] |} ->
  async_initialize py_repr unicode_lower const api_client (d0, log0) = (Return tt, (d1, log1)) ->
  async_initialize py_repr unicode_lower const api_client (d1, log1') = (Return tt, (d2, log2)) ->
  (exists name1 name2,
     sensor (_sensor_instances d2) =
       [ImouSensor (_device_id d0) name1 "lastAlarm";
        ImouSensor (_device_id d0) name2 "lastAlarm"] /\
     binary_sensor (_sensor_instances d2) =
       [ImouBinarySensor (_device_id d0) name1 "online";
        ImouBinarySensor (_device_id d0) name2 "online"]) /\
  forall switch_type,
    switch_type ∈ keys (IMOU_SWITCHES const) ->
    matches unicode_lower switch_type (_capabilities d1) = true ->
    matches unicode_lower switch_type (_capabilities d2) = true ->
    length (filter (fun e => entity_name e = switch_type)
              (switch (_sensor_instances d2))) = 2%nat.
Proof.
  intros Hnd H0
    (ab1 & n1 & _ & Hid1 & _ & Hs1 & Hse1 & Hb1)%async_initialize_appends
    (ab2 & n2 & _ & Hid2 & _ & Hs2 & Hse2 & Hb2)%async_initialize_appends.
  rewrite H0 in Hs1, Hse1, Hb1. cbn in Hs1, Hse1, Hb1.
  rewrite Hs1 in Hs2. rewrite Hse1 in Hse2. rewrite Hb1 in Hb2.
  rewrite Hid1 in Hs2, Hse2, Hb2. split.
  - by exists n1, n2.
  - intros t Ht Hm1 Hm2. rewrite Hs2, filter_app, length_app.
    rewrite !created_switches_count by done. by rewrite Hm1, Hm2.
Qed.
End Initialize.

Lemma eq_str_spec v s : Py.eq_str v s = true <-> v = JStr s.
Proof.
  destruct v; cbn; try (split; [discriminate | congruence]).
  rewrite String.eqb_eq. split; congruence.
Qed.

Section Validation.
Variable py_repr : json -> string.
Variable unicode_lower : string -> string.
Variable const : Const.
Variable api_client : ImouAPIClient.

(** C4.  [async_initialize] raises [InvalidResponse] when the response has
    no "deviceList", when its list has no or several elements, and when
    reading the single entry raises anything at all (a missing field, an
    entry that is not an object, an "ability" that is not a string); the
    initialized flag becomes true on a call that returns and is left as it
    was on a call that raises. *)
Theorem async_initialize_validation d log :
  let log1 := log ++ [CallDeviceBaseDetailList [_device_id d]] in
  (forall device_array,
     async_api_deviceBaseDetailList api_client log [_device_id d] = Return device_array ->
     (device_array !! "deviceList" = None ->
      async_initialize py_repr unicode_lower const api_client (d, log) =
        (Raise InvalidResponse, (d, log1))) /\
     (forall entries,
        device_array !! "deviceList" = Some (JList entries) ->
        length entries <> 1%nat ->
        async_initialize py_repr unicode_lower const api_client (d, log) =
          (Raise InvalidResponse, (d, log1))) /\
     (forall device_data,
        device_array !! "deviceList" = Some (JList [device_data]) ->
        (forall e s,
           parse_device_data unicode_lower const device_data (d, log1) = (Raise e, s) ->
           async_initialize py_repr unicode_lower const api_client (d, log) =
             (Raise InvalidResponse, s)) /\
        (read_entry device_data = None ->
         exists d',
           async_initialize py_repr unicode_lower const api_client (d, log) =
             (Raise InvalidResponse, (d', log1))))) /\
  (forall r d' log',
     async_initialize py_repr unicode_lower const api_client (d, log) = (r, (d', log')) ->
     _initialized d' =
       match r with Return _ => true | Raise _ => _initialized d end).
Proof.
  cbn zeta. split.
  - intros device_array Ha. rewrite async_initialize_unfold, Ha. cbn zeta.
    split; [by intros ->|]. split.
    + intros entries -> Hlen. cbn [Py.len].
      destruct (length entries =? 1)%nat eqn:Hn; [|done].
      by apply Nat.eqb_eq in Hn.
    + intros device_data ->. cbn [Py.len Py.first length Nat.eqb negb].
      split.
      * by intros e s ->.
      * intros Hr.
        pose proof (parse_device_data_Return unicode_lower const device_data d
                      (log ++ [CallDeviceBaseDetailList [_device_id d]])) as Hp.
        rewrite Hr in Hp. destruct Hp as (e & d' & -> & _). by exists d'.
  - intros [[]|e] d' log' H.
    + by apply async_initialize_appends in H as (_ & _ & _ & _ & -> & _).
    + by apply async_initialize_Raise in H as (_ & _ & -> & _).
Qed.
End Validation.

Section GetData.
Variable py_repr : json -> string.
Variable unicode_lower : string -> string.
Variable const : Const.
Variable api_client : ImouAPIClient.

(** [async_get_data] on an enabled, initialized device, one case per way
    the online check can end. *)
Lemma async_get_data_unfold d log :
  _enabled d = true -> _initialized d = true ->
  async_get_data py_repr unicode_lower const api_client (d, log) =
  let log1 := log ++ [CallDeviceOnline (_device_id d)] in
  match async_api_deviceOnline api_client log (_device_id d) with
  | Raise e => (Raise e, (d, log1))
  | Return data =>
      match data !! "onLine" with
      | None => (Raise InvalidResponse, (d, log1))
      | Some on_line =>
          if Py.eq_str on_line "1" then
            bind (update_switch api_client)
              (fun _ => bind (update_sensor api_client)
                 (fun _ => bind (update_binary_sensor api_client)
                    (fun _ => ret true)))
              (set_online true d, log1)
          else (Return true, (set_online false d, log1))
      end
  end.
Proof.
  intros He Hi.
  unfold async_get_data, bind at 1, get_self. cbn [fst snd]. rewrite He. cbn [negb].
  unfold bind at 1. rewrite Hi. cbn [negb ret].
  unfold bind at 1, get_self. cbn [fst snd].
  unfold bind at 1, on_log, deviceOnline. cbn [fst snd].
  destruct (async_api_deviceOnline _ _ _) as [data|]; [|done].
  destruct (data !! "onLine") as [on_line|]; [|done].
  unfold bind at 1, update. cbn [fst snd].
  unfold bind at 1. cbn [fst snd].
  destruct (Py.eq_str on_line "1"); cbn [_online set_online].
  - unfold bind, ret.
    destruct (update_switch _ _) as [[] ?]; [|done].
    destruct (update_sensor _ _) as [[] ?]; [|done].
    by destruct (update_binary_sensor _ _) as [[] ?].
  - done.
Qed.

(** When no update raises, the loop over one list calls the update of
    each entity once, in the order of the list. *)
Lemma update_instances_all l log :
  (forall h e, exists state, entity_refresh api_client h e = Return state) ->
  exists l',
    update_instances api_client l log =
      (Return tt, (l', log ++ (CallEntityUpdate <$> l))) /\
    length l' = length l.
Proof.
  intros Hok. revert log. induction l as [|e l IH]; intros log.
  { exists []. cbn. by rewrite app_nil_r. }
  cbn [update_instances]. unfold async_update.
  destruct (Hok log e) as [state ->].
  destruct (IH (log ++ [CallEntityUpdate e])) as (l' & -> & Hlen).
  eexists (_ :: l'). split; [|by cbn; rewrite Hlen].
  by rewrite fmap_cons, <- app_assoc.
Qed.

(** C3, as the code has it.  On an enabled, initialized device whose
    online check answers "onLine" == "1", and provided no entity's update
    raises, [async_get_data] calls the update of every owned entity
    exactly once, switches first, then sensors, then binary sensors, each
    list in insertion order, and returns true; when the answer is anything
    else it calls no update, leaves the entities as they were and returns
    true. *)
Theorem async_get_data_refreshes d log data on_line :
  _enabled d = true -> _initialized d = true ->
  async_api_deviceOnline api_client log (_device_id d) = Return data ->
  data !! "onLine" = Some on_line ->
  let log1 := log ++ [CallDeviceOnline (_device_id d)] in
  (on_line = JStr "1" ->
   (forall h e, exists state, entity_refresh api_client h e = Return state) ->
   exists d',
     async_get_data py_repr unicode_lower const api_client (d, log) =
       (Return true, (d', log1 ++ (CallEntityUpdate <$> get_all_sensors d))) /\
     _online d' = true) /\
  (on_line <> JStr "1" ->
   async_get_data py_repr unicode_lower const api_client (d, log) =
     (Return true, (set_online false d, log1))).
Proof.
  intros He Hi Ha Hd. cbn zeta.
  rewrite async_get_data_unfold, Ha, Hd by done. cbn zeta. split.
  - intros -> Hok. cbn [Py.eq_str]. rewrite String.eqb_refl.
    unfold bind, update_switch, update_sensor, update_binary_sensor, ret.
    cbn [fst snd _sensor_instances set_online set_sensor_instances
         switch sensor binary_sensor].
    destruct (update_instances_all (switch (_sensor_instances d))
                (log ++ [CallDeviceOnline (_device_id d)]) Hok) as (l1 & -> & _).
    cbn [fst snd _sensor_instances set_online set_sensor_instances
         switch sensor binary_sensor].
    match goal with |- context [update_instances _ _ ?l] =>
      destruct (update_instances_all (sensor (_sensor_instances d)) l Hok)
        as (l2 & -> & _) end.
    cbn [fst snd _sensor_instances set_online set_sensor_instances
         switch sensor binary_sensor].
    match goal with |- context [update_instances _ _ ?l] =>
      destruct (update_instances_all (binary_sensor (_sensor_instances d)) l Hok)
        as (l3 & -> & _) end.
    eexists. split.
    + unfold get_all_sensors. by rewrite !fmap_app, <- !app_assoc.
    + reflexivity.
  - intros Hne. destruct (Py.eq_str on_line "1") eqn:Heq; [|done].
    by apply eq_str_spec in Heq.
Qed.

(** C5.  On a disabled device [async_get_data] returns false, asks
    nothing of the API client and leaves the device as it was. *)
Theorem async_get_data_disabled d log :
  _enabled d = false ->
  async_get_data py_repr unicode_lower const api_client (d, log) = (Return false, (d, log)).
Proof.
  intros He. unfold async_get_data, bind, get_self. cbn [fst snd].
  by rewrite He.
Qed.

(** C10.  On an enabled, initialized device, an online answer without
    "onLine" makes [async_get_data] raise [InvalidResponse] with the
    device, online flag and entities included, exactly as it was; only
    the call itself is added to the log. *)
Theorem async_get_data_missing_onLine d log data :
  _enabled d = true -> _initialized d = true ->
  async_api_deviceOnline api_client log (_device_id d) = Return data ->
  data !! "onLine" = None ->
  async_get_data py_repr unicode_lower const api_client (d, log) =
    (Raise InvalidResponse, (d, log ++ [CallDeviceOnline (_device_id d)])).
Proof.
  intros He Hi Ha Hd. by rewrite async_get_data_unfold, Ha, Hd.
Qed.
End GetData.

(** C6.  [get_name] returns the given name once it has been set to a
    non-empty string, the vendor's name while the given name is empty, and
    the vendor's name again after [set_name] with the empty string. *)
Theorem get_name_override d :
  (forall given_name,
     given_name <> EmptyString -> get_name (set_name given_name d) = JStr given_name) /\
  (_given_name d <> EmptyString -> get_name d = JStr (_given_name d)) /\
  (_given_name d = EmptyString -> get_name d = _name d) /\
  get_name (set_name EmptyString d) = _name d.
Proof.
  unfold get_name, set_name. cbn [_given_name _name]. repeat split.
  - intros g Hg. by apply String.eqb_neq in Hg as ->.
  - intros Hg. by apply String.eqb_neq in Hg as ->.
  - by intros ->.
Qed.

Lemma describe_or_name_unknown t name :
  table_has t name = false -> describe_or_name t name = name.
Proof. unfold table_has, describe_or_name. by destruct (table_get t name). Qed.

(** A loop over names that are all in the table collects every item. *)
Lemma collect_sensor_info t l :
  Forall (fun e => table_has t (entity_name e) = true) l ->
  exists infos, collect (sensor_info t) l = Return infos.
Proof.
  induction 1 as [|e l He _ [infos IH]]; [by exists []|].
  cbn [collect]. rewrite IH. unfold sensor_info, describe, table_item.
  unfold table_has in He. destruct (table_get t (entity_name e)); [|done].
  eauto.
Qed.

Section Diagnostics.
Variable py_repr : json -> string.
Variable unicode_lower : string -> string.
Variable const : Const.
Variable api_client : ImouAPIClient.

(** In [get_diagnostics] a capability that is not in [IMOU_CAPABILITIES]
    and a switch that is not in [IMOU_SWITCHES] are described by their raw
    name; the call returns whenever every sensor is in [SENSORS] and every
    binary sensor in [BINARY_SENSORS]. *)
Lemma get_diagnostics_descriptions d :
  Forall (fun e => table_has (SENSORS const) (entity_name e) = true)
    (sensor (_sensor_instances d)) ->
  Forall (fun e => table_has (BINARY_SENSORS const) (entity_name e) = true)
    (binary_sensor (_sensor_instances d)) ->
  exists data,
    get_diagnostics const api_client d = Return data /\
    capability_name <$> capabilities data = _capabilities d /\
    sensor_name <$> switches data = entity_name <$> switch (_sensor_instances d) /\
    (forall c, c ∈ capabilities data ->
       table_has (IMOU_CAPABILITIES const) (capability_name c) = false ->
       capability_description c = capability_name c) /\
    (forall s, s ∈ switches data ->
       table_has (IMOU_SWITCHES const) (sensor_name s) = false ->
       sensor_description s = sensor_name s).
Proof.
  intros [sensors Hs]%collect_sensor_info [binary_sensors Hb]%collect_sensor_info.
  unfold get_diagnostics. rewrite Hs, Hb. eexists. split; [reflexivity|].
  cbn [capabilities switches]. repeat split.
  - rewrite <- list_fmap_compose. by rewrite <- (list_fmap_id (_capabilities d)) at 2.
  - by rewrite <- list_fmap_compose.
  - intros c (name & -> & _)%list_elem_of_fmap. apply describe_or_name_unknown.
  - intros s (e & -> & _)%list_elem_of_fmap. apply describe_or_name_unknown.
Qed.
End Diagnostics.

Section Discover.
Variable py_repr : json -> string.
Variable unicode_lower : string -> string.
Variable const : Const.
Variable api_client : ImouAPIClient.

Lemma discover_loop_all device_list devices log :
  discover_loop py_repr unicode_lower const api_client device_list devices log =
  match discover_all py_repr unicode_lower const api_client device_list log with
  | (Return initialized, log') => (Return (assign_all py_repr devices initialized), log')
  | (Raise e, log') => (Raise e, log')
  end.
Proof.
  revert devices log. induction device_list as [|device_data rest IH]; intros devices log.
  { done. }
  cbn [discover_loop discover_all]. unfold bind.
  destruct (discover_device _ _ _ _ _ _) as [[device|e] log1]; [|done].
  rewrite IH.
  by destruct (discover_all _ _ _ _ _ _) as [[initialized|e] log2].
Qed.

(** Under each name the [dict] holds the last device assigned to it. *)
Lemma assign_all_lookup devices l name :
  assign_all py_repr devices l !! name =
  match last (filter (fun device => display_name py_repr device = name) l) with
  | Some device => Some device
  | None => devices !! name
  end.
Proof.
  induction l as [|device l IH] using rev_ind; [done|].
  unfold assign_all in *. rewrite foldl_app, filter_app. cbn [foldl].
  rewrite filter_cons, filter_nil.
  destruct (decide (display_name py_repr device = name)) as [<-|Hne].
  - by rewrite lookup_insert_eq, last_snoc.
  - by rewrite lookup_insert_ne, app_nil_r.
Qed.

(** C8.  The mapping [async_discover_devices] returns is keyed by display
    name and holds, under each name, the last device of that name in the
    order of the API response: when two devices resolve to the same name
    the later one has replaced the earlier one. *)
Theorem discover_later_device_wins log devices log' :
  async_discover_devices py_repr unicode_lower const api_client log = (Return devices, log') ->
  exists devices_data device_list entries initialized,
    async_api_deviceBaseList api_client log = Return devices_data /\
    devices_data !! "deviceList" = Some device_list /\
    Py.iter device_list = Return entries /\
    discover_all py_repr unicode_lower const api_client entries (log ++ [CallDeviceBaseList]) =
      (Return initialized, log') /\
    forall name,
      devices !! name =
      last (filter (fun device => display_name py_repr device = name) initialized).
Proof.
  unfold async_discover_devices, bind at 1, deviceBaseList.
  destruct (async_api_deviceBaseList api_client log) as [devices_data|] eqn:Ha; [|done].
  destruct (devices_data !! "deviceList") as [device_list|] eqn:Hl; [|done].
  destruct (devices_data !! "count"); [|done].
  unfold bind, lift.
  destruct (Py.iter device_list) as [entries|] eqn:Hi; [|done].
  rewrite discover_loop_all.
  destruct (discover_all _ _ _ _ _ _) as [[initialized|e] log2] eqn:Hd; [|done].
  intros [= <- <-]. exists devices_data, device_list, entries, initialized.
  repeat split; try done.
  intros name. rewrite assign_all_lookup, lookup_empty.
  by destruct (last _).
Qed.
End Discover.

(** * Further properties *)

Section Refresh.
Variable py_repr : json -> string.
Variable unicode_lower : string -> string.
Variable const : Const.
Variable api_client : ImouAPIClient.

(** The loop over one list, whatever its outcome: it asked the entities of
    a prefix of the list, in order, and it kept every entity's identity; it
    returns only after the whole list. *)
Lemma update_instances_prefix l log :
  exists k,
    (k <= length l)%nat /\
    (update_instances api_client l log).2.2 = log ++ (CallEntityUpdate <$> take k l) /\
    identity <$> (update_instances api_client l log).2.1 = identity <$> l /\
    (forall u, (update_instances api_client l log).1 = Return u -> k = length l).
Proof.
  revert log. induction l as [|e l IH]; intros log.
  { exists 0%nat. cbn. by rewrite app_nil_r. }
  cbn [update_instances]. unfold async_update.
  destruct (entity_refresh api_client log e) as [state|x].
  - destruct (IH (log ++ [CallEntityUpdate e])) as (k & Hk & Hlog & Hid & Hret).
    destruct (update_instances api_client l (log ++ [CallEntityUpdate e]))
      as [r [l' log']].
    cbn [fst snd] in *. exists (S k). repeat split.
    + cbn. lia.
    + rewrite Hlog. cbn. by rewrite <- app_assoc.
    + cbn. by rewrite Hid.
    + intros u Hu. cbn. by rewrite (Hret u Hu).
  - exists 1%nat. cbn. repeat split; try done. lia.
Qed.

(** [async_get_data] on an enabled, initialized device, whatever its
    outcome. *)
Lemma async_get_data_shape d log :
  _enabled d = true -> _initialized d = true ->
  let run := async_get_data py_repr unicode_lower const api_client (d, log) in
  same_details d run.2.1 /\ same_entities d run.2.1 /\
  (exists k,
     run.2.2 = log ++ CallDeviceOnline (_device_id d) ::
                 (CallEntityUpdate <$> take k (get_all_sensors d))) /\
  (forall b, run.1 = Return b -> b = true) /\
  (forall data on_line,
     async_api_deviceOnline api_client log (_device_id d) = Return data ->
     data !! "onLine" = Some on_line ->
     _online run.2.1 = Py.eq_str on_line "1").
Proof.
  intros He Hi. cbn zeta. rewrite async_get_data_unfold by done. cbn zeta.
  destruct (async_api_deviceOnline api_client log (_device_id d)) as [data|e].
  2:{ cbn. repeat split; try done. exists 0%nat. by rewrite take_0. }
  destruct (data !! "onLine") as [on_line|] eqn:Hd.
  2:{ cbn. repeat split; try done.
      - exists 0%nat. by rewrite take_0.
      - intros ? ? [= <-] ?. congruence. }
  destruct (Py.eq_str on_line "1") eqn:Hon.
  2:{ cbn. repeat split; try done.
      - exists 0%nat. by rewrite take_0.
      - by intros b [= <-].
      - by (intros ? ? [= <-] Hx; rewrite Hd in Hx; injection Hx as <-). }
  set (log1 := log ++ [CallDeviceOnline (_device_id d)]).
  unfold bind, update_switch, update_sensor, update_binary_sensor, ret.
  cbn [fst snd _sensor_instances set_online set_sensor_instances
       switch sensor binary_sensor].
  destruct (update_instances_prefix (switch (_sensor_instances d)) log1)
    as (k1 & Hk1 & Hl1 & Hi1 & Hr1).
  destruct (update_instances api_client (switch (_sensor_instances d)) log1)
    as [r1 [l1 log2]].
  cbn [fst snd] in *.
  assert (Hlog : forall es, log1 ++ es = log ++ CallDeviceOnline (_device_id d) :: es).
  { intros. unfold log1. by rewrite <- app_assoc. }
  destruct r1 as [[]|x1].
  2:{ cbn. repeat split; try done.
      - exists k1. rewrite Hl1, Hlog. unfold get_all_sensors.
        by rewrite take_app_le.
      - by (intros ? ? [= <-] Hx; rewrite Hd in Hx; injection Hx as <-). }
  specialize (Hr1 _ eq_refl). subst k1.
  cbn [fst snd _sensor_instances set_online set_sensor_instances
       switch sensor binary_sensor].
  destruct (update_instances_prefix (sensor (_sensor_instances d)) log2)
    as (k2 & Hk2 & Hl2 & Hi2 & Hr2).
  destruct (update_instances api_client (sensor (_sensor_instances d)) log2)
    as [r2 [l2 log3]].
  cbn [fst snd] in *.
  destruct r2 as [[]|x2].
  2:{ cbn. repeat split; try done.
      - exists (length (switch (_sensor_instances d)) + k2)%nat.
        rewrite Hl2, Hl1, take_ge by done. rewrite <- app_assoc, <- fmap_app, Hlog.
        unfold get_all_sensors.
        by rewrite take_app_add, take_app_le by done.
      - by (intros ? ? [= <-] Hx; rewrite Hd in Hx; injection Hx as <-). }
  specialize (Hr2 _ eq_refl). subst k2.
  cbn [fst snd _sensor_instances set_online set_sensor_instances
       switch sensor binary_sensor].
  destruct (update_instances_prefix (binary_sensor (_sensor_instances d)) log3)
    as (k3 & Hk3 & Hl3 & Hi3 & Hr3).
  destruct (update_instances api_client (binary_sensor (_sensor_instances d)) log3)
    as [r3 [l3 log4]].
  cbn [fst snd] in *.
  assert (Hfin : log4 = log ++ CallDeviceOnline (_device_id d) ::
            (CallEntityUpdate <$>
               take (length (switch (_sensor_instances d)) +
                     (length (sensor (_sensor_instances d)) + k3))
                 (get_all_sensors d))).
  { rewrite Hl3, Hl2, Hl1.
    rewrite (take_ge (switch _)), (take_ge (sensor _)) by done.
    rewrite <- !app_assoc, <- !fmap_app, Hlog. unfold get_all_sensors.
    by rewrite !take_app_add. }
  destruct r3 as [[]|x3]; cbn; (split; [done|]); (split; [done|]);
    (split; [eauto|]); (split; [by intros ? [= <-] || done|]);
    by (intros ? ? [= <-] Hx; rewrite Hd in Hx; injection Hx as <-).
Qed.
End Refresh.

Section InitializeOutcomes.
Variable py_repr : json -> string.
Variable unicode_lower : string -> string.
Variable const : Const.
Variable api_client : ImouAPIClient.

(** A [try] block that raises has written some of the five detail fields
    and nothing else. *)
Lemma parse_device_data_Raise device_data d log e d' log' :
  parse_device_data unicode_lower const device_data (d, log) = (Raise e, (d', log')) ->
  read_entry device_data = None /\ log' = log /\
  same_lifecycle d d' /\ _sensor_instances d' = _sensor_instances d /\
  _capabilities d' = _capabilities d /\ _switches d' = _switches d /\
  _manufacturer d' = _manufacturer d.
Proof.
  pose proof (parse_device_data_Return unicode_lower const device_data d log) as Hp.
  destruct (read_entry device_data) as [[[[[[c v] n] m] st] ab]|] eqn:Hr.
  { rewrite Hp. discriminate. }
  intros H. split; [done|]. clear Hp. revert H.
  unfold read_entry in Hr.
  destruct device_data as [| | | |items|fields];
    try (by intros [= <- <- <-]).
  unfold parse_device_data, bind, lift, update, Py.getitem, Py.split_method.
  cbn [fst snd].
  repeat (case_match; simplify_eq/=; try (by intros [= <- <- <-])).
Qed.

(** [get_diagnostics] can only raise [KeyError]. *)
Lemma get_diagnostics_Raise d e :
  get_diagnostics const api_client d = Raise e -> e = KeyError.
Proof.
  assert (Hc : forall t l x,
            collect (sensor_info t) l = Raise x -> x = KeyError).
  { intros t l x. induction l as [|s l IH]; [done|]. cbn [collect].
    unfold sensor_info at 1, describe, table_item.
    destruct (table_get t (entity_name s)); [|by intros [= <-]].
    destruct (collect (sensor_info t) l); [done|]. intros [= <-]. by apply IH. }
  unfold get_diagnostics.
  destruct (collect _ (sensor _)) eqn:H1; [|intros [= <-]; eauto].
  destruct (collect _ (binary_sensor _)) eqn:H2; [done|intros [= <-]; eauto].
Qed.

Lemma dump_get_diagnostics d :
  match get_diagnostics const api_client d with
  | Return _ => exists s, dump py_repr const api_client d = Return s
  | Raise e => dump py_repr const api_client d = Raise e
  end.
Proof. unfold dump. destruct (get_diagnostics _ _ _); eauto. Qed.

(** The four ways [async_initialize] can end: before the [try] block with
    the device untouched; in the [try] block; in the debug dump after it,
    with the device populated but not marked; or by returning. *)
Lemma async_initialize_cases d log :
  let run := async_initialize py_repr unicode_lower const api_client (d, log) in
  run.2.2 = log ++ [CallDeviceBaseDetailList [_device_id d]] /\
  ((exists e, run.1 = Raise e /\ run.2.1 = d) \/
   (run.1 = Raise InvalidResponse /\
    same_lifecycle d run.2.1 /\ _sensor_instances run.2.1 = _sensor_instances d /\
    _capabilities run.2.1 = _capabilities d /\ _switches run.2.1 = _switches d) \/
   (exists catalog version name device_model status ability,
      let d1 := populated unicode_lower const catalog version name device_model status ability d in
      (run.1 = Raise KeyError /\ run.2.1 = d1 /\
       get_diagnostics const api_client d1 = Raise KeyError) \/
      (run.1 = Return tt /\ run.2.1 = set_initialized true d1 /\
       exists data, get_diagnostics const api_client d1 = Return data))).
Proof.
  cbn zeta. rewrite async_initialize_unfold. cbn zeta.
  destruct (async_api_deviceBaseDetailList _ _ _) as [device_array|];
    [|split; [done|left; eauto]].
  destruct (device_array !! "deviceList") as [device_list|];
    [|split; [done|left; eauto]].
  destruct (Py.len device_list) as [len|]; [|split; [done|left; eauto]].
  destruct (negb _); [split; [done|left; eauto]|].
  destruct (Py.first device_list) as [device_data|]; [|split; [done|left; eauto]].
  destruct (parse_device_data unicode_lower const device_data _) as [[[]|e] [d1 log1]] eqn:Hp.
  - pose proof (parse_device_data_Return unicode_lower const device_data d
                  (log ++ [CallDeviceBaseDetailList [_device_id d]])) as Hr.
    destruct (read_entry device_data) as [[[[[[c v] n] m] st] ab]|].
    2:{ destruct Hr as (? & ? & Hr & _). rewrite Hp in Hr. discriminate. }
    rewrite Hp in Hr. injection Hr as -> ->.
    pose proof (dump_get_diagnostics (populated unicode_lower const c v n m st ab d)) as Hd.
    destruct (get_diagnostics _ _ _) as [data|e] eqn:Hg.
    + destruct Hd as [s ->]. split; [done|]. right. right.
      exists c, v, n, m, st, ab. right. cbn. rewrite Hg. eauto.
    + rewrite Hd. apply get_diagnostics_Raise in Hg as Hk. subst e.
      split; [done|]. right. right. exists c, v, n, m, st, ab. left. by rewrite Hg.
  - apply parse_device_data_Raise in Hp as (_ & -> & Hl & Hs & Hc & Hw & _).
    split; [done|]. right. left. done.
Qed.
End InitializeOutcomes.

Lemma collect_sensor_info_Return t l infos :
  collect (sensor_info t) l = Return infos ->
  Forall (fun e => table_has t (entity_name e) = true) l.
Proof.
  revert infos. induction l as [|e l IH]; intros infos; [by constructor|].
  cbn [collect]. unfold sensor_info at 1, describe, table_item, table_has.
  destruct (table_get t (entity_name e)) eqn:Ht; [|done].
  destruct (collect (sensor_info t) l) as [rest|]; [|done].
  intros _. constructor; [by rewrite Ht | by eapply IH].
Qed.

Section InitializeMore.
Variable py_repr : json -> string.
Variable unicode_lower : string -> string.
Variable const : Const.
Variable api_client : ImouAPIClient.

(** [get_diagnostics] returns exactly on the devices whose sensors and
    binary sensors are all described. *)
Lemma get_diagnostics_Return_iff d :
  (exists data, get_diagnostics const api_client d = Return data) <->
  describable const d.
Proof.
  unfold describable, get_diagnostics. split.
  - intros [data H].
    destruct (collect _ (sensor _)) eqn:H1; [|done].
    destruct (collect _ (binary_sensor _)) eqn:H2; [|done].
    split; by eapply collect_sensor_info_Return.
  - intros [[s ->]%collect_sensor_info [b ->]%collect_sensor_info]. eauto.
Qed.

Lemma add_switches_switches switches_keys d :
  _switches (add_switches unicode_lower switches_keys d) =
  _switches d ++ filter (fun t => matches unicode_lower t (_capabilities d)) switches_keys.
Proof.
  revert d. induction switches_keys as [|t ks IH]; intros d.
  { cbn. by rewrite app_nil_r. }
  cbn [add_switches]. rewrite IH.
  pose proof (match_capability_frame unicode_lower t (_capabilities d) d) as F. cbn zeta in F.
  destruct F as (_ & _ & _ & _ & _ & _ & _ & _ & Hc & _). rewrite Hc.
  rewrite match_capability_spec, filter_cons.
  case_decide as Hd; destruct (matches unicode_lower t (_capabilities d)); try done.
  cbn. by rewrite <- app_assoc.
Qed.

Lemma populated_details catalog version name device_model status ability d :
  let d' := populated unicode_lower const catalog version name device_model status ability d in
  _catalog d' = catalog /\ _firmware d' = version /\ _name d' = name /\
  _device_model d' = device_model /\ _online d' = Py.eq_str status "online" /\
  _manufacturer d' = _manufacturer d /\
  _switches d' =
    _switches d ++
      filter (fun t => matches unicode_lower t (capabilities_of ability)) (keys (IMOU_SWITCHES const)).
Proof.
  unfold populated. cbn zeta.
  set (d0 := force_motion_detect _).
  assert (Hd0 : _catalog d0 = catalog /\ _firmware d0 = version /\ _name d0 = name /\
                _device_model d0 = device_model /\
                _online d0 = Py.eq_str status "online" /\
                _manufacturer d0 = _manufacturer d /\ _switches d0 = _switches d /\
                _capabilities d0 = capabilities_of ability).
  { unfold d0, force_motion_detect, capabilities_of. cbn.
    by destruct (Py.contains _ _). }
  destruct Hd0 as (Hc & Hf & Hn & Hm & Ho & Hma & Hs & Hcap).
  pose proof (add_switches_frame unicode_lower (keys (IMOU_SWITCHES const)) d0) as F.
  cbn zeta in F.
  destruct F as (_ & Hc' & Hf' & Hn' & _ & Hm' & Hma' & Ho' & _).
  cbn. rewrite Hc', Hf', Hn', Hm', Hma', Ho'.
  repeat (split; [done|]).
  by rewrite add_switches_switches, Hs, Hcap.
Qed.
End InitializeMore.

Section InitializeExtras.
Variable py_repr : json -> string.
Variable unicode_lower : string -> string.
Variable const : Const.
Variable api_client : ImouAPIClient.

(** X1.  Whatever its outcome, one [async_initialize] makes exactly one
    request, the detail request for the device's own id, and never changes
    the device id, the given name or the enabled flag. *)
Theorem async_initialize_one_request d log :
  let run := async_initialize py_repr unicode_lower const api_client (d, log) in
  run.2.2 = log ++ [detail_request (_device_id d)] /\
  _device_id run.2.1 = _device_id d /\
  _given_name run.2.1 = _given_name d /\
  _enabled run.2.1 = _enabled d.
Proof.
  destruct (async_initialize_cases py_repr unicode_lower const api_client d log) as [Hlog H].
  cbn zeta in *. split; [exact Hlog|].
  destruct H as [(e & _ & ->)|[(_ & (? & ? & _ & ?) & _)|
    (c & v & n & m & st & ab & [(_ & -> & _)|(_ & -> & _)])]]; try done.
  - by destruct (populated_lifecycle unicode_lower const c v n m st ab d) as (? & ? & _ & ?).
  - by destruct (populated_lifecycle unicode_lower const c v n m st ab d) as (? & ? & _ & ?).
Qed.

(** X2.  An [async_initialize] that ends in [InvalidResponse] has added no
    entity and has left the capabilities, the switch names and the
    initialized flag as they were. *)
Theorem async_initialize_rejected_adds_nothing d log d' log' :
  async_initialize py_repr unicode_lower const api_client (d, log) =
    (Raise InvalidResponse, (d', log')) ->
  _sensor_instances d' = _sensor_instances d /\
  _capabilities d' = _capabilities d /\
  _switches d' = _switches d /\
  _initialized d' = _initialized d.
Proof.
  intros Hrun.
  destruct (async_initialize_cases py_repr unicode_lower const api_client d log) as [_ H].
  cbn zeta in H. rewrite Hrun in H. cbn [fst snd] in H.
  destruct H as [(e & _ & ->)|[(_ & (_ & _ & ? & _) & ? & ? & ?)|
    (c & v & n & m & st & ab & [(? & _)|(? & _)])]]; done.
Qed.

(** X3.  [async_initialize] returns on every well-formed answer: when the
    tables describe "lastAlarm" and "online" and the sensors already there,
    a one-element "deviceList" whose entry has the six fields makes the call
    return, with the device populated from the entry and marked
    initialized. *)
Theorem async_initialize_returns d log device_array device_data
    catalog version name device_model status ability :
  table_has (SENSORS const) "lastAlarm" = true ->
  table_has (BINARY_SENSORS const) "online" = true ->
  describable const d ->
  async_api_deviceBaseDetailList api_client log [_device_id d] = Return device_array ->
  device_array !! "deviceList" = Some (JList [device_data]) ->
  read_entry device_data =
    Some (catalog, version, name, device_model, status, ability) ->
  async_initialize py_repr unicode_lower const api_client (d, log) =
    (Return tt,
     (set_initialized true
        (populated unicode_lower const catalog version name device_model status ability d),
      log ++ [detail_request (_device_id d)])).
Proof.
  intros Hs Hb [Hds Hdb] Ha Hl Hr.
  rewrite async_initialize_unfold, Ha, Hl. cbn zeta.
  cbn [Py.len Py.first length Nat.eqb negb].
  pose proof (parse_device_data_Return unicode_lower const device_data d
                (log ++ [CallDeviceBaseDetailList [_device_id d]])) as Hp.
  rewrite Hr in Hp. rewrite Hp.
  assert (Hd : describable const
                 (populated unicode_lower const catalog version name device_model status ability d)).
  { destruct (populated_instances unicode_lower const catalog version name device_model status
                ability d) as (_ & Hse & Hbi).
    unfold describable. rewrite Hse, Hbi. split; apply Forall_app; split; try done.
    - by repeat constructor.
    - by repeat constructor. }
  apply (get_diagnostics_Return_iff const api_client) in Hd as [data Hd].
  pose proof (dump_get_diagnostics py_repr const api_client
                (populated unicode_lower const catalog version name device_model status ability d))
    as Hdump.
  rewrite Hd in Hdump. destruct Hdump as [s ->]. done.
Qed.

(** X4.  The debug dump at the end of [async_initialize] ties it to the
    tables: when [SENSORS] does not describe "lastAlarm", or
    [BINARY_SENSORS] does not describe "online", no call ever returns. *)
Theorem async_initialize_needs_descriptions d log :
  table_has (SENSORS const) "lastAlarm" = false \/
  table_has (BINARY_SENSORS const) "online" = false ->
  (async_initialize py_repr unicode_lower const api_client (d, log)).1 <> Return tt.
Proof.
  intros Hmiss Hret.
  destruct (async_initialize_cases py_repr unicode_lower const api_client d log) as [_ H].
  cbn zeta in H. rewrite Hret in H.
  destruct H as [(e & ? & _)|[(? & _)|
    (c & v & n & m & st & ab & [(? & _)|(_ & _ & Hd)])]]; try done.
  apply (get_diagnostics_Return_iff const api_client) in Hd as [Hse Hbi].
  destruct (populated_instances unicode_lower const c v n m st ab d) as (_ & Hs & Hb).
  rewrite Hs in Hse. rewrite Hb in Hbi.
  apply Forall_app in Hse as [_ Hse]. apply Forall_app in Hbi as [_ Hbi].
  rewrite Forall_singleton in Hse. rewrite Forall_singleton in Hbi.
  unfold ImouSensor, ImouBinarySensor, new_entity in Hse, Hbi.
  cbn [entity_name] in Hse, Hbi.
  destruct Hmiss; congruence.
Qed.

(** X5.  A failing [async_initialize] is not rolled back: an entry with a
    "catalog" but no "version" makes it raise [InvalidResponse] with the
    new catalog already stored and nothing else changed. *)
Theorem async_initialize_not_atomic d log device_array fields catalog :
  async_api_deviceBaseDetailList api_client log [_device_id d] = Return device_array ->
  device_array !! "deviceList" = Some (JList [JDict fields]) ->
  fields !! "catalog" = Some catalog ->
  fields !! "version" = None ->
  async_initialize py_repr unicode_lower const api_client (d, log) =
    (Raise InvalidResponse,
     (set_catalog catalog d, log ++ [detail_request (_device_id d)])).
Proof.
  intros Ha Hl Hc Hv. rewrite async_initialize_unfold, Ha, Hl. cbn zeta.
  cbn [Py.len Py.first length Nat.eqb negb].
  unfold parse_device_data, bind, lift, update, Py.getitem. cbn [fst snd].
  by rewrite Hc, Hv.
Qed.

(** X6.  The entities a successful [async_initialize] appends carry the
    device's id and the display name the device has at the end of the call:
    the given name if one is set, else the vendor name just read. *)
Theorem async_initialize_labels_entities d log d' log' :
  async_initialize py_repr unicode_lower const api_client (d, log) = (Return tt, (d', log')) ->
  exists created_switch created_sensor created_binary_sensor,
    switch (_sensor_instances d') = switch (_sensor_instances d) ++ created_switch /\
    sensor (_sensor_instances d') = sensor (_sensor_instances d) ++ [created_sensor] /\
    binary_sensor (_sensor_instances d') =
      binary_sensor (_sensor_instances d) ++ [created_binary_sensor] /\
    forall e,
      e ∈ created_switch ++ [created_sensor; created_binary_sensor] ->
      entity_device_id e = _device_id d' /\ entity_device_name e = get_name d'.
Proof.
  intros (_ & _ & _ & c & v & n & m & st & ab & _ & _ & _ & _ & _ & -> & _)
    %async_initialize_Return.
  destruct (populated_instances unicode_lower const c v n m st ab d) as (Hs & Hse & Hb).
  destruct (populated_details unicode_lower const c v n m st ab d) as (_ & _ & Hn & _).
  destruct (populated_lifecycle unicode_lower const c v n m st ab d) as (Hid & Hg & _).
  eexists _, _, _. split; [exact Hs|]. split; [exact Hse|]. split; [exact Hb|].
  assert (Hname : get_name (set_initialized true (populated unicode_lower const c v n m st ab d)) =
                  name_after n d).
  { unfold get_name, name_after, set_initialized, set_vendor_name.
    cbn [_given_name _name]. by rewrite Hn, Hg. }
  rewrite Hname. unfold set_initialized. cbn [_device_id]. rewrite Hid.
  intros e [He|He]%elem_of_app.
  - by apply list_elem_of_fmap in He as (t & -> & _).
  - apply elem_of_cons in He as [->|He]; [done|].
    by apply list_elem_of_singleton in He as ->.
Qed.

(** X7.  Because "motionDetect" is forced into the capabilities, every
    successful [async_initialize] appends a switch for every key of
    [IMOU_SWITCHES] that equals "motionDetect" up to case, whatever the API
    reports. *)
Theorem motionDetect_switch_always_created d log d' log' switch_type :
  switch_type ∈ keys (IMOU_SWITCHES const) ->
  Py.lower unicode_lower switch_type = Py.lower unicode_lower "motionDetect" ->
  async_initialize py_repr unicode_lower const api_client (d, log) = (Return tt, (d', log')) ->
  exists e,
    e ∈ drop (length (switch (_sensor_instances d))) (switch (_sensor_instances d')) /\
    entity_class e = SwitchClass /\ entity_name e = switch_type.
Proof.
  intros Hk Hlow (ab & n & Hc & _ & _ & Hs & _)%async_initialize_appends.
  rewrite Hs, drop_app_length.
  exists (ImouSwitch (_device_id d) n switch_type). split; [|done].
  apply list_elem_of_fmap. exists switch_type. split; [done|].
  apply list_elem_of_filter. split; [|done].
  apply Is_true_true, matches_spec. exists "motionDetect". split; [|done].
  rewrite Hc. apply motionDetect_in_capabilities_of.
Qed.

(** X8.  Not every malformed answer ends in [InvalidResponse]: a
    "deviceList" that is an object with one member passes the length test
    and fails at [[0]] with a raw [KeyError]; one that is a number, a
    boolean or null fails at [len] with a raw [TypeError].  Both happen
    before the [try] block, with the device untouched. *)
Theorem async_initialize_raw_errors d log device_array device_list :
  async_api_deviceBaseDetailList api_client log [_device_id d] = Return device_array ->
  device_array !! "deviceList" = Some device_list ->
  ((exists fields, device_list = JDict fields /\ size fields = 1%nat) ->
   async_initialize py_repr unicode_lower const api_client (d, log) =
     (Raise KeyError, (d, log ++ [detail_request (_device_id d)]))) /\
  (device_list = JNull \/ (exists b, device_list = JBool b) \/
   (exists n, device_list = JInt n) ->
   async_initialize py_repr unicode_lower const api_client (d, log) =
     (Raise TypeError, (d, log ++ [detail_request (_device_id d)]))).
Proof.
  intros Ha Hl. rewrite async_initialize_unfold, Ha, Hl. cbn zeta. split.
  - intros (fields & -> & Hsz). cbn [Py.len Py.first]. by rewrite Hsz.
  - by intros [->|[[b ->]|[n ->]]].
Qed.
End InitializeExtras.

Lemma identity_names (l l' : list ImouEntity) :
  identity <$> l' = identity <$> l -> entity_name <$> l' = entity_name <$> l.
Proof.
  intros H. apply (f_equal (fmap snd)) in H.
  by rewrite <- !list_fmap_compose in H.
Qed.

Lemma identity_classes (l l' : list ImouEntity) :
  identity <$> l' = identity <$> l -> entity_class <$> l' = entity_class <$> l.
Proof.
  intros H. apply (f_equal (fmap (fun x => x.1.1))) in H.
  by rewrite <- !list_fmap_compose in H.
Qed.

Lemma Forall_fmap_eq {A B} (f : A -> B) (P : B -> Prop) (l l' : list A) :
  f <$> l' = f <$> l -> Forall (fun x => P (f x)) l -> Forall (fun x => P (f x)) l'.
Proof.
  intros H Hl. apply (Forall_fmap f P). rewrite H. by apply Forall_fmap.
Qed.

Section GetDataExtras.
Variable py_repr : json -> string.
Variable unicode_lower : string -> string.
Variable const : Const.
Variable api_client : ImouAPIClient.

(** A successful [async_initialize] marks the device and keeps it enabled. *)
Lemma async_initialize_Return_flags d log r d' log' :
  async_initialize py_repr unicode_lower const api_client (d, log) = (Return r, (d', log')) ->
  _initialized d' = true /\ _enabled d' = _enabled d.
Proof.
  intros (_ & _ & _ & c & v & n & m & st & ab & _ & _ & _ & _ & _ & -> & _)
    %async_initialize_Return.
  by destruct (populated_lifecycle unicode_lower const c v n m st ab d) as (_ & _ & _ & ?).
Qed.

(** The first [async_get_data] on an enabled device that is not yet
    initialized runs [async_initialize] and then goes on as on an
    initialized device. *)
Lemma async_get_data_lazy d log :
  _enabled d = true -> _initialized d = false ->
  async_get_data py_repr unicode_lower const api_client (d, log) =
  match async_initialize py_repr unicode_lower const api_client (d, log) with
  | (Return _, s) => async_get_data py_repr unicode_lower const api_client s
  | (Raise e, s) => (Raise e, s)
  end.
Proof.
  intros He Hi. unfold async_get_data.
  rewrite (bind_eq_Return get_self _ (d, log) d (d, log)) by reflexivity.
  cbn beta. rewrite He, Hi. cbn [negb]. unfold bind at 1.
  destruct (async_initialize py_repr unicode_lower const api_client (d, log))
    as [[[]|e] [d1 log1]] eqn:Hrun; [|done].
  apply async_initialize_Return_flags in Hrun as [Hi1 He1]. rewrite He in He1.
  rewrite !(bind_eq_Return get_self _ (d1, log1) d1 (d1, log1)) by reflexivity.
  cbn beta. rewrite He1, Hi1. cbn [negb].
  rewrite (bind_eq_Return (ret tt) _ (d1, log1) tt (d1, log1)) by reflexivity.
  by rewrite !(bind_eq_Return get_self _ (d1, log1) d1 (d1, log1)) by reflexivity.
Qed.

(** A property of devices that [async_initialize] keeps, and that does not
    look at entity states or the online flag, is kept by [async_get_data]. *)
Lemma async_get_data_keeps (P : ImouDevice -> Prop) :
  (forall d log, P d -> P (async_initialize py_repr unicode_lower const api_client (d, log)).2.1) ->
  (forall d d', same_details d d' -> same_entities d d' -> P d -> P d') ->
  forall d log, P d -> P (async_get_data py_repr unicode_lower const api_client (d, log)).2.1.
Proof.
  intros Hinit Hsame d log HP.
  destruct (_enabled d) eqn:He.
  2:{ unfold async_get_data, bind, get_self. cbn [fst snd]. by rewrite He. }
  destruct (_initialized d) eqn:Hi.
  { destruct (async_get_data_shape py_repr unicode_lower const api_client d log He Hi)
      as (Hd & Hs & _). eauto. }
  rewrite async_get_data_lazy by done.
  specialize (Hinit d log HP).
  destruct (async_initialize py_repr unicode_lower const api_client (d, log))
    as [[[]|e] [d1 log1]] eqn:Hrun; [|done].
  apply async_initialize_Return_flags in Hrun as [Hi1 He1]. rewrite He in He1.
  destruct (async_get_data_shape py_repr unicode_lower const api_client d1 log1 He1 Hi1)
    as (Hd & Hs & _). eauto.
Qed.
End GetDataExtras.

Section GetDataMore.
Variable py_repr : json -> string.
Variable unicode_lower : string -> string.
Variable const : Const.
Variable api_client : ImouAPIClient.

(** X9.  The first [async_get_data] on an enabled device that is not yet
    initialized is [async_initialize] followed, if it returned, by the
    [async_get_data] of an initialized device; an exception of the
    initialization is passed on as it is and nothing is asked after it. *)
Theorem async_get_data_initializes_first d log :
  _enabled d = true -> _initialized d = false ->
  async_get_data py_repr unicode_lower const api_client (d, log) =
  match async_initialize py_repr unicode_lower const api_client (d, log) with
  | (Return _, s) => async_get_data py_repr unicode_lower const api_client s
  | (Raise e, s) => (Raise e, s)
  end.
Proof. apply async_get_data_lazy. Qed.

(** X11.  Whatever its outcome, [async_get_data] on an enabled,
    initialized device adds, removes and reorders no entity and writes no
    attribute of the device but the online flag: only entity states can
    differ afterwards. *)
Theorem async_get_data_keeps_entities d log :
  _enabled d = true -> _initialized d = true ->
  same_details d (async_get_data py_repr unicode_lower const api_client (d, log)).2.1 /\
  same_entities d (async_get_data py_repr unicode_lower const api_client (d, log)).2.1.
Proof.
  intros He Hi.
  by destruct (async_get_data_shape py_repr unicode_lower const api_client d log He Hi)
    as (? & ? & _).
Qed.

(** X12.  After [async_get_data] on an enabled, initialized device whose
    online answer has an "onLine" member, the device is online exactly when
    that member is the string "1" (the number 1 or the boolean true count
    as offline), also when an entity update raised afterwards. *)
Theorem async_get_data_online_flag d log data on_line :
  _enabled d = true -> _initialized d = true ->
  async_api_deviceOnline api_client log (_device_id d) = Return data ->
  data !! "onLine" = Some on_line ->
  is_online (async_get_data py_repr unicode_lower const api_client (d, log)).2.1 = true <->
  on_line = JStr "1".
Proof.
  intros He Hi Ha Hd.
  destruct (async_get_data_shape py_repr unicode_lower const api_client d log He Hi)
    as (_ & _ & _ & _ & H).
  unfold is_online. rewrite (H data on_line Ha Hd). apply eq_str_spec.
Qed.

(** A returning [async_get_data] returns the enabled flag. *)
Lemma async_get_data_Return_enabled d log b s :
  async_get_data py_repr unicode_lower const api_client (d, log) = (Return b, s) ->
  b = _enabled d.
Proof.
  destruct (_enabled d) eqn:He.
  2:{ unfold async_get_data, bind, get_self. cbn [fst snd]. rewrite He.
      by intros [= <- _]. }
  destruct (_initialized d) eqn:Hi.
  { intros H.
    destruct (async_get_data_shape py_repr unicode_lower const api_client d log He Hi)
      as (_ & _ & _ & Hb & _). apply Hb. by rewrite H. }
  rewrite async_get_data_lazy by done.
  destruct (async_initialize py_repr unicode_lower const api_client (d, log))
    as [[[]|e] [d1 log1]] eqn:Hrun; [|done].
  apply async_initialize_Return_flags in Hrun as [Hi1 He1]. rewrite He in He1.
  intros H.
  destruct (async_get_data_shape py_repr unicode_lower const api_client d1 log1 He1 Hi1)
    as (_ & _ & _ & Hb & _). apply Hb. by rewrite H.
Qed.

(** X13.  When [async_get_data] returns, it returns the enabled flag:
    false on a disabled device and true on an enabled one, online or not. *)
Theorem async_get_data_returns_enabled d log b s :
  async_get_data py_repr unicode_lower const api_client (d, log) = (Return b, s) ->
  b = _enabled d.
Proof. apply async_get_data_Return_enabled. Qed.

(** X14.  The lazy initialization happens once: a device on which
    [async_get_data] returned true is initialized and still enabled, and
    every later [async_get_data] asks the online status and entity updates
    only, never the device details again. *)
Theorem async_get_data_initializes_once d log d1 log1 :
  async_get_data py_repr unicode_lower const api_client (d, log) = (Return true, (d1, log1)) ->
  _initialized d1 = true /\ _enabled d1 = true /\
  forall log2,
    exists k,
      (async_get_data py_repr unicode_lower const api_client (d1, log2)).2.2 =
      log2 ++ CallDeviceOnline (_device_id d1) ::
        (CallEntityUpdate <$> take k (get_all_sensors d1)).
Proof.
  intros Hrun.
  assert (He : _enabled d = true).
  { symmetry. by eapply async_get_data_Return_enabled. }
  assert (Hflags : _initialized d1 = true /\ _enabled d1 = true).
  { destruct (_initialized d) eqn:Hi.
    - destruct (async_get_data_shape py_repr unicode_lower const api_client d log He Hi)
        as ((_ & _ & _ & _ & _ & _ & _ & _ & _ & Hi1 & He1) & _).
      rewrite Hrun in Hi1, He1. cbn [fst snd] in Hi1, He1. split; congruence.
    - rewrite async_get_data_lazy in Hrun by done.
      destruct (async_initialize py_repr unicode_lower const api_client (d, log))
        as [[[]|e] [d0 log0]] eqn:Hinit; [|done].
      apply async_initialize_Return_flags in Hinit as [Hi0 He0]. rewrite He in He0.
      destruct (async_get_data_shape py_repr unicode_lower const api_client d0 log0 He0 Hi0)
        as ((_ & _ & _ & _ & _ & _ & _ & _ & _ & Hi1 & He1) & _).
      rewrite Hrun in Hi1, He1. cbn [fst snd] in Hi1, He1. split; congruence. }
  destruct Hflags as [Hi1 He1]. split; [done|]. split; [done|].
  intros log2.
  by destruct (async_get_data_shape py_repr unicode_lower const api_client d1 log2 He1 Hi1)
    as (_ & _ & H & _).
Qed.

(** X15.  [_switches] and the switch entities stay in step: from
    construction on, through every [async_initialize] and every
    [async_get_data], whatever their outcomes, [_switches] is the list of
    the names of the switch entities. *)
Theorem switches_in_step_kept :
  (forall device_id, switches_in_step (init device_id)) /\
  (forall d log,
     switches_in_step d ->
     switches_in_step (async_initialize py_repr unicode_lower const api_client (d, log)).2.1) /\
  (forall d log,
     switches_in_step d ->
     switches_in_step (async_get_data py_repr unicode_lower const api_client (d, log)).2.1).
Proof.
  assert (Hinit : forall d log,
            switches_in_step d ->
            switches_in_step (async_initialize py_repr unicode_lower const api_client (d, log)).2.1).
  { intros d log Hd.
    assert (Hp : forall c v n m st ab,
              switches_in_step (populated unicode_lower const c v n m st ab d)).
    { intros. unfold switches_in_step.
      destruct (populated_instances unicode_lower const c v n m st ab d) as (-> & _).
      destruct (populated_details unicode_lower const c v n m st ab d)
        as (_ & _ & _ & _ & _ & _ & ->).
      rewrite fmap_app, Hd. f_equal. unfold created_switches.
      rewrite <- list_fmap_compose. by rewrite list_fmap_id. }
    destruct (async_initialize_cases py_repr unicode_lower const api_client d log) as [_ H].
    cbn zeta in H. unfold switches_in_step in *.
    destruct H as [(e & _ & ->)|[(_ & _ & -> & _ & ->)|
      (c & v & n & m & st & ab & [(_ & -> & _)|(_ & -> & _)])]]; try done.
    all: apply (Hp c v n m st ab). }
  split; [done|]. split; [exact Hinit|].
  apply async_get_data_keeps; [exact Hinit|].
  intros d d' (_ & _ & _ & _ & _ & _ & _ & _ & Hs & _) (Hsw & _) Hd.
  unfold switches_in_step in *. by rewrite Hs, Hd, (identity_names _ _ Hsw).
Qed.

(** X16.  Every list of [_sensor_instances] holds entities of its own
    class only: true at construction and kept by every [async_initialize]
    and every [async_get_data], whatever their outcomes. *)
Theorem sorted_by_class_kept :
  (forall device_id, sorted_by_class (init device_id)) /\
  (forall d log,
     sorted_by_class d ->
     sorted_by_class (async_initialize py_repr unicode_lower const api_client (d, log)).2.1) /\
  (forall d log,
     sorted_by_class d ->
     sorted_by_class (async_get_data py_repr unicode_lower const api_client (d, log)).2.1).
Proof.
  assert (Hinit : forall d log,
            sorted_by_class d ->
            sorted_by_class (async_initialize py_repr unicode_lower const api_client (d, log)).2.1).
  { intros d log Hd.
    assert (Hp : forall c v n m st ab,
              sorted_by_class (populated unicode_lower const c v n m st ab d)).
    { intros. destruct Hd as (H1 & H2 & H3). unfold sorted_by_class.
      destruct (populated_instances unicode_lower const c v n m st ab d) as (-> & -> & ->).
      repeat split; apply Forall_app; split; try done.
      - apply Forall_forall. by intros e (t & -> & _)%list_elem_of_fmap.
      - by repeat constructor.
      - by repeat constructor. }
    destruct (async_initialize_cases py_repr unicode_lower const api_client d log) as [_ H].
    cbn zeta in H. unfold sorted_by_class in *.
    destruct H as [(e & _ & ->)|[(_ & _ & -> & _)|
      (c & v & n & m & st & ab & [(_ & -> & _)|(_ & -> & _)])]]; try done.
    all: apply (Hp c v n m st ab). }
  split. { intros. unfold sorted_by_class. cbn. by repeat split. }
  split; [exact Hinit|].
  apply async_get_data_keeps; [exact Hinit|].
  intros d d' _ (Hsw & Hse & Hbi) (H1 & H2 & H3).
  apply identity_classes in Hsw, Hse, Hbi.
  repeat split.
  - by apply (Forall_fmap_eq entity_class (fun c => c = SwitchClass) _ _ Hsw).
  - by apply (Forall_fmap_eq entity_class (fun c => c = SensorClass) _ _ Hse).
  - by apply (Forall_fmap_eq entity_class (fun c => c = BinarySensorClass) _ _ Hbi).
Qed.

(** X17.  After a successful [async_initialize], [get_diagnostics] and
    [dump] return, and they still return after any [async_get_data] that
    follows, whether it returned or raised. *)
Theorem diagnostics_after_initialize d log d1 log1 log2 :
  async_initialize py_repr unicode_lower const api_client (d, log) = (Return tt, (d1, log1)) ->
  let d2 := (async_get_data py_repr unicode_lower const api_client (d1, log2)).2.1 in
  (exists data, get_diagnostics const api_client d1 = Return data) /\
  (exists data, get_diagnostics const api_client d2 = Return data) /\
  (exists text, dump py_repr const api_client d2 = Return text).
Proof.
  intros Hrun. cbn zeta.
  assert (Hd1 : describable const d1).
  { destruct (async_initialize_cases py_repr unicode_lower const api_client d log) as [_ H].
    cbn zeta in H. rewrite Hrun in H. cbn [fst snd] in H.
    destruct H as [(e & ? & _)|[(? & _)|
      (c & v & n & m & st & ab & [(? & _)|(_ & -> & Hd)])]]; try done.
    apply (get_diagnostics_Return_iff const api_client) in Hd.
    exact Hd. }
  apply async_initialize_Return_flags in Hrun as [Hi1 _].
  assert (Hd2 : describable const
                  (async_get_data py_repr unicode_lower const api_client (d1, log2)).2.1).
  { destruct (_enabled d1) eqn:He1.
    - destruct (async_get_data_shape py_repr unicode_lower const api_client d1 log2 He1 Hi1)
        as (_ & (_ & Hse & Hbi) & _).
      destruct Hd1 as [H1 H2]. apply identity_names in Hse, Hbi. split.
      + by apply (Forall_fmap_eq entity_name
                    (fun n => table_has (SENSORS const) n = true) _ _ Hse).
      + by apply (Forall_fmap_eq entity_name
                    (fun n => table_has (BINARY_SENSORS const) n = true) _ _ Hbi).
    - unfold async_get_data, bind, get_self. cbn [fst snd]. by rewrite He1. }
  split; [by apply get_diagnostics_Return_iff|].
  apply (get_diagnostics_Return_iff const api_client) in Hd2 as [data Hd2].
  split; [eauto|].
  pose proof (dump_get_diagnostics py_repr const api_client
                (async_get_data py_repr unicode_lower const api_client (d1, log2)).2.1) as Hdump.
  by rewrite Hd2 in Hdump.
Qed.
End GetDataMore.

Section RefreshOrder.
Variable py_repr : json -> string.
Variable unicode_lower : string -> string.
Variable const : Const.
Variable api_client : ImouAPIClient.

(** The loop over a list, whatever its outcome, in terms of what the
    client answered: it asked the first [k] entities in order, all but
    possibly the last of them answered, and it stopped either at the end of
    the list or at the first entity whose refresh raised, with that
    exception. *)
Lemma update_instances_trace l log :
  let run := update_instances api_client l log in
  let history i := log ++ (CallEntityUpdate <$> take i l) in
  exists k,
    run.2.2 = history k /\
    (forall i e, l !! i = Some e -> S i < k ->
       exists state, entity_refresh api_client (history i) e = Return state) /\
    (forall i e x, l !! i = Some e -> S i = k ->
       entity_refresh api_client (history i) e = Raise x -> run.1 = Raise x) /\
    (forall i e state, l !! i = Some e -> S i = k ->
       entity_refresh api_client (history i) e = Return state ->
       k = length l /\ run.1 = Return tt) /\
    (l <> [] -> 0 < k) /\
    (l = [] -> run.1 = Return tt).
Proof.
  cbn zeta. revert log. induction l as [|e l IH]; intros log.
  { exists 0. cbn. rewrite app_nil_r. repeat split; try done; intros; lia. }
  cbn [update_instances]. unfold async_update.
  destruct (entity_refresh api_client log e) as [state|x] eqn:He.
  - destruct (IH (log ++ [CallEntityUpdate e])) as (k & Hlog & H1 & H2 & H3 & H4 & H5).
    destruct (update_instances api_client l (log ++ [CallEntityUpdate e]))
      as [r [l' log']].
    cbn [fst snd] in *.
    assert (Hh : forall i, log ++ (CallEntityUpdate <$> take (S i) (e :: l)) =
                 (log ++ [CallEntityUpdate e]) ++ (CallEntityUpdate <$> take i l)).
    { intros i. cbn. by rewrite <- app_assoc. }
    exists (S k). split; [by rewrite Hh|].
    split; [|split; [|split; [|split]]].
    + intros [|i] e0 Hi Hk.
      * injection Hi as <-. cbn. rewrite app_nil_r. eauto.
      * rewrite Hh. apply H1; [done|lia].
    + intros [|i] e0 x Hi Hk.
      * injection Hi as <-. cbn. rewrite app_nil_r, He. done.
      * rewrite Hh. apply H2; [done|lia].
    + intros [|i] e0 st Hi Hk Hr.
      * assert (k = 0) as -> by lia.
        destruct l as [|e1 l]; [|specialize (H4 ltac:(done)); lia].
        split; [done|]. by apply H5.
      * rewrite Hh in Hr. destruct (H3 i e0 st Hi ltac:(lia) Hr) as [-> ->].
        done.
    + intros _. lia.
    + done.
  - exists 1. cbn [fst snd]. split; [done|].
    split; [|split; [|split; [|split]]]; try done.
    + intros i e0 Hi Hk. lia.
    + intros [|i] e0 x' Hi Hk; [|lia]. injection Hi as <-. cbn.
      rewrite app_nil_r, He. congruence.
    + intros [|i] e0 st Hi Hk; [|lia]. injection Hi as <-. cbn.
      rewrite app_nil_r, He. congruence.
    + intros _. lia.
Qed.

(** The loop over a concatenation is the loop over the first list followed,
    if it returned, by the loop over the second. *)
Lemma update_instances_app l1 l2 log :
  update_instances api_client (l1 ++ l2) log =
  match update_instances api_client l1 log with
  | (Return _, (l1', log1)) =>
      match update_instances api_client l2 log1 with
      | (r, (l2', log2)) => (r, (l1' ++ l2', log2))
      end
  | (Raise x, (l1', log1)) => (Raise x, (l1' ++ l2, log1))
  end.
Proof.
  revert log. induction l1 as [|e l1 IH]; intros log.
  { cbn. by destruct (update_instances api_client l2 log) as [r [l2' log2]]. }
  cbn [app update_instances].
  destruct (async_update api_client e log) as [[e'|x] log1]; [|done].
  rewrite IH.
  destruct (update_instances api_client l1 log1) as [[[]|x] [l1' log2]]; [|done].
  by destruct (update_instances api_client l2 log2) as [r [l2' log3]].
Qed.

(** The three loops of [async_get_data] are one loop over
    [get_all_sensors]. *)
Lemma update_all_platforms d log :
  let stages :=
    bind (update_switch api_client)
      (fun _ => bind (update_sensor api_client)
         (fun _ => bind (update_binary_sensor api_client)
            (fun _ => ret true))) (d, log) in
  let run := update_instances api_client (get_all_sensors d) log in
  stages.1 = match run.1 with Return _ => Return true | Raise x => Raise x end /\
  stages.2.2 = run.2.2.
Proof.
  cbn zeta. unfold get_all_sensors. rewrite update_instances_app.
  unfold bind, update_switch, update_sensor, update_binary_sensor, ret.
  cbn [fst snd].
  destruct (update_instances api_client (switch (_sensor_instances d)) log)
    as [[[]|x] [l1 log1]]; [|done].
  rewrite update_instances_app.
  cbn [fst snd _sensor_instances set_sensor_instances switch sensor binary_sensor].
  destruct (update_instances api_client (sensor (_sensor_instances d)) log1)
    as [[[]|x] [l2 log2]]; [|done].
  cbn [fst snd _sensor_instances set_sensor_instances switch sensor binary_sensor].
  by destruct (update_instances api_client (binary_sensor (_sensor_instances d)) log2)
    as [[[]|x] [l3 log3]].
Qed.

(** X10.  Whatever its outcome, [async_get_data] on an enabled,
    initialized device asks the online status once and then the updates of
    the first [k] entities in the order of [get_all_sensors], each once.
    Every entity asked before the last one answered; if the last one asked
    raised, the call raises that exception and asks nothing after it; if
    the last one asked answered, every entity was asked and the call
    returns true; and a device reported online has its first entity
    asked. *)
Theorem async_get_data_asks_in_order d log :
  _enabled d = true -> _initialized d = true ->
  let run := async_get_data py_repr unicode_lower const api_client (d, log) in
  let history i :=
    log ++ CallDeviceOnline (_device_id d) ::
      (CallEntityUpdate <$> take i (get_all_sensors d)) in
  exists k,
    run.2.2 = history k /\
    (forall i e, get_all_sensors d !! i = Some e -> S i < k ->
       exists state, entity_refresh api_client (history i) e = Return state) /\
    (forall i e x, get_all_sensors d !! i = Some e -> S i = k ->
       entity_refresh api_client (history i) e = Raise x -> run.1 = Raise x) /\
    (forall i e state, get_all_sensors d !! i = Some e -> S i = k ->
       entity_refresh api_client (history i) e = Return state ->
       k = length (get_all_sensors d) /\ run.1 = Return true) /\
    (forall data,
       async_api_deviceOnline api_client log (_device_id d) = Return data ->
       data !! "onLine" = Some (JStr "1") ->
       get_all_sensors d <> [] -> 0 < k).
Proof.
  intros He Hi. cbn zeta. rewrite async_get_data_unfold by done. cbn zeta.
  assert (Hzero : forall r : Outcome bool,
            (forall data,
               async_api_deviceOnline api_client log (_device_id d) = Return data ->
               data !! "onLine" = Some (JStr "1") -> False) ->
            exists k,
              log ++ [CallDeviceOnline (_device_id d)] =
                log ++ CallDeviceOnline (_device_id d) ::
                  (CallEntityUpdate <$> take k (get_all_sensors d)) /\
              (forall i e, get_all_sensors d !! i = Some e -> S i < k ->
                 exists state,
                   entity_refresh api_client
                     (log ++ CallDeviceOnline (_device_id d) ::
                        (CallEntityUpdate <$> take i (get_all_sensors d))) e =
                   Return state) /\
              (forall i e x, get_all_sensors d !! i = Some e -> S i = k ->
                 entity_refresh api_client
                   (log ++ CallDeviceOnline (_device_id d) ::
                      (CallEntityUpdate <$> take i (get_all_sensors d))) e = Raise x ->
                 r = Raise x) /\
              (forall i e state, get_all_sensors d !! i = Some e -> S i = k ->
                 entity_refresh api_client
                   (log ++ CallDeviceOnline (_device_id d) ::
                      (CallEntityUpdate <$> take i (get_all_sensors d))) e =
                   Return state ->
                 k = length (get_all_sensors d) /\ r = Return true) /\
              (forall data,
                 async_api_deviceOnline api_client log (_device_id d) = Return data ->
                 data !! "onLine" = Some (JStr "1") ->
                 get_all_sensors d <> [] -> 0 < k)).
  { intros r Hno. exists 0. rewrite take_0. repeat split; try done; try (intros; lia).
    intros data Ha Hd. by destruct (Hno data Ha Hd). }
  destruct (async_api_deviceOnline api_client log (_device_id d)) as [data|e] eqn:Ha.
  2:{ cbn [fst snd]. apply Hzero. intros ? [=]. }
  destruct (data !! "onLine") as [on_line|] eqn:Hd.
  2:{ cbn [fst snd]. apply Hzero. intros ? [= <-]. congruence. }
  destruct (Py.eq_str on_line "1") eqn:Hon.
  2:{ cbn [fst snd]. apply Hzero. intros ? [= <-] Hd'.
      rewrite Hd in Hd'. injection Hd' as ->. discriminate. }
  destruct (update_all_platforms (set_online true d)
              (log ++ [CallDeviceOnline (_device_id d)])) as [Hr Hl].
  cbn zeta in Hr, Hl. rewrite Hr, Hl.
  change (get_all_sensors (set_online true d)) with (get_all_sensors d).
  destruct (update_instances_trace (get_all_sensors d)
              (log ++ [CallDeviceOnline (_device_id d)]))
    as (k & Hlog & H1 & H2 & H3 & H4 & _).
  cbn zeta in *.
  assert (Hh : forall i,
            (log ++ [CallDeviceOnline (_device_id d)]) ++
              (CallEntityUpdate <$> take i (get_all_sensors d)) =
            log ++ CallDeviceOnline (_device_id d) ::
              (CallEntityUpdate <$> take i (get_all_sensors d))).
  { intros i. by rewrite <- app_assoc. }
  exists k. rewrite Hlog, Hh. split; [done|].
  split; [|split; [|split]].
  - intros i e Hi' Hk. rewrite <- Hh. by eapply H1.
  - intros i e x Hi' Hk Hx. rewrite <- Hh in Hx. by rewrite (H2 i e x Hi' Hk Hx).
  - intros i e st Hi' Hk Hs. rewrite <- Hh in Hs.
    destruct (H3 i e st Hi' Hk Hs) as [-> ->]. done.
  - intros _ _ _. exact H4.
Qed.
End RefreshOrder.


Section ReachableDevices.
Variable py_repr : json -> string.
Variable unicode_lower : string -> string.
Variable const : Const.
Variable api_client : ImouAPIClient.


End ReachableDevices.

Lemma find_name_Some (name : string) (l : list ImouEntity) e :
  find (fun x => String.eqb (entity_name x) name) l = Some e <->
  exists before after,
    l = before ++ e :: after /\ entity_name e = name /\
    Forall (fun x => entity_name x <> name) before.
Proof.
  induction l as [|x l IH]; cbn [find].
  { split; [done|]. intros (b & a & H & _). by destruct b. }
  destruct (String.eqb (entity_name x) name) eqn:Hx.
  - apply String.eqb_eq in Hx. split.
    + intros [= <-]. exists [], l. by repeat split.
    + intros ([|y b] & a & H & He & Hb).
      * by injection H as <- _.
      * injection H as <- _. by apply Forall_cons in Hb as [? _].
  - apply String.eqb_neq in Hx. rewrite IH. split.
    + intros (b & a & -> & He & Hb). exists (x :: b), a. repeat split; try done.
      by constructor.
    + intros ([|y b] & a & H & He & Hb).
      * injection H as <- _. done.
      * injection H as <- ->. apply Forall_cons in Hb as [_ Hb]. eauto.
Qed.

Lemma find_name_None (name : string) (l : list ImouEntity) :
  find (fun x => String.eqb (entity_name x) name) l = None <->
  Forall (fun x => entity_name x <> name) l.
Proof.
  induction l as [|x l IH]; cbn [find]; [by split|].
  destruct (String.eqb (entity_name x) name) eqn:Hx.
  - apply String.eqb_eq in Hx. split; [done|]. by intros [? _]%Forall_cons.
  - apply String.eqb_neq in Hx. rewrite IH. split.
    + by constructor.
    + by intros [_ ?]%Forall_cons.
Qed.

(** X18.  [get_sensor_by_name] returns the first entity of that name in
    the order switches, sensors, binary sensors (a switch hides a sensor of
    the same name), and nothing exactly when no entity has the name. *)
Theorem get_sensor_by_name_first name d :
  (forall e,
     get_sensor_by_name name d = Some e <->
     exists before after,
       get_all_sensors d = before ++ e :: after /\ entity_name e = name /\
       Forall (fun x => entity_name x <> name) before) /\
  (get_sensor_by_name name d = None <->
   Forall (fun x => entity_name x <> name) (get_all_sensors d)).
Proof.
  unfold get_sensor_by_name. split.
  - intros e. apply find_name_Some.
  - apply find_name_None.
Qed.

Lemma filter_all {A} (P : A -> Prop) `{!forall x, Decision (P x)} (l : list A) :
  Forall P l -> filter P l = l.
Proof.
  induction 1 as [|x l Hx _ IH]; [done|].
  by rewrite filter_cons, decide_True, IH.
Qed.

Lemma filter_none {A} (P : A -> Prop) `{!forall x, Decision (P x)} (l : list A) :
  Forall (fun x => ~ P x) l -> filter P l = [].
Proof.
  induction 1 as [|x l Hx _ IH]; [done|].
  by rewrite filter_cons, decide_False, IH.
Qed.

(** X19.  On a device whose lists are sorted by class, as construction,
    initialization and refresh leave them, [get_sensors_by_platform] selects from
    [get_all_sensors] the entities of one class: switches for "switch",
    sensors for "sensor", binary sensors for "binary_sensor"; any other
    platform name, also one that differs only in case, gives the empty
    list. *)
Theorem get_sensors_by_platform_selects d :
  sorted_by_class d ->
  get_sensors_by_platform "switch" d =
    filter (fun e => entity_class e = SwitchClass) (get_all_sensors d) /\
  get_sensors_by_platform "sensor" d =
    filter (fun e => entity_class e = SensorClass) (get_all_sensors d) /\
  get_sensors_by_platform "binary_sensor" d =
    filter (fun e => entity_class e = BinarySensorClass) (get_all_sensors d) /\
  forall platform,
    platform <> "switch" -> platform <> "sensor" -> platform <> "binary_sensor" ->
    get_sensors_by_platform platform d = [].
Proof.
  intros (Hsw & Hse & Hbi). unfold get_all_sensors.
  assert (Hne : forall (c c' : EntityClass) (l : list ImouEntity),
            c <> c' -> Forall (fun e => entity_class e = c) l ->
            Forall (fun e => ~ entity_class e = c') l).
  { intros c c' l Hcc H. eapply Forall_impl; [exact H|]. intros; congruence. }
  repeat split.
  - rewrite !filter_app, (filter_all _ _ Hsw).
    rewrite (filter_none _ (sensor _)), (filter_none _ (binary_sensor _)).
    + by rewrite !app_nil_r.
    + by apply (Hne BinarySensorClass).
    + by apply (Hne SensorClass).
  - rewrite !filter_app, (filter_all _ _ Hse).
    rewrite (filter_none _ (switch _)), (filter_none _ (binary_sensor _)).
    + by rewrite app_nil_r.
    + by apply (Hne BinarySensorClass).
    + by apply (Hne SwitchClass).
  - rewrite !filter_app, (filter_all _ _ Hbi).
    rewrite (filter_none _ (switch _)), (filter_none _ (sensor _)).
    + done.
    + by apply (Hne SensorClass).
    + by apply (Hne SwitchClass).
  - intros platform H1 H2 H3. unfold get_sensors_by_platform.
    apply String.eqb_neq in H1, H2, H3. by rewrite H1, H2, H3.
Qed.

Section DiscoverExtras.
Variable py_repr : json -> string.
Variable unicode_lower : string -> string.
Variable const : Const.
Variable api_client : ImouAPIClient.

(** One turn of the discovery loop that returns has read the entry's
    "deviceId", asked for exactly that device, and holds it initialized. *)
Lemma discover_device_Return device_data log device log' :
  discover_device py_repr unicode_lower const api_client device_data log = (Return device, log') ->
  Py.getitem device_data "deviceId" = Return (_device_id device) /\
  _initialized device = true /\ _enabled device = true /\
  log' = log ++ [detail_request (_device_id device)].
Proof.
  unfold discover_device, bind, lift.
  destruct (Py.getitem device_data "deviceId") as [id|]; [|done].
  destruct (async_initialize_cases py_repr unicode_lower const api_client (init id) log)
    as [Hlog _]. cbn zeta in Hlog.
  destruct (async_initialize py_repr unicode_lower const api_client (init id, log))
    as [[[]|e] [d1 log1]] eqn:Hrun; [|done].
  intros [= <- <-]. cbn [fst snd] in Hlog.
  pose proof Hrun as (_ & _ & _ & c & v & n & m & st & ab & _ & _ & _ & _ & _ & Hd & _)
    %async_initialize_Return.
  apply async_initialize_Return_flags in Hrun as [Hi He].
  assert (Hid : _device_id d1 = id).
  { subst d1. unfold set_initialized. cbn [_device_id].
    by destruct (populated_lifecycle unicode_lower const c v n m st ab (init id)) as (-> & _). }
  rewrite Hid. done.
Qed.

Lemma discover_all_Return entries log initialized log' :
  discover_all py_repr unicode_lower const api_client entries log = (Return initialized, log') ->
  Forall2 (fun device_data device =>
             Py.getitem device_data "deviceId" = Return (_device_id device) /\
             _initialized device = true /\ _enabled device = true)
    entries initialized /\
  log' = log ++ (detail_request <$> (_device_id <$> initialized)).
Proof.
  revert log initialized log'.
  induction entries as [|device_data rest IH]; intros log initialized log'.
  { intros [= <- <-]. split; [constructor|]. cbn. by rewrite app_nil_r. }
  cbn [discover_all]. unfold bind.
  destruct (discover_device _ _ _ _ _ _) as [[device|e] log1] eqn:Hdev; [|done].
  destruct (discover_all _ _ _ _ rest log1) as [[devices|e] log2] eqn:Hrest; [|done].
  intros [= <- <-].
  apply discover_device_Return in Hdev as (Hid & Hi & He & ->).
  apply IH in Hrest as [Hall ->]. split; [by constructor|].
  cbn. by rewrite <- app_assoc.
Qed.

Lemma discover_all_Raise before bad after log initialized log1 e log2 :
  discover_all py_repr unicode_lower const api_client before log = (Return initialized, log1) ->
  discover_device py_repr unicode_lower const api_client bad log1 = (Raise e, log2) ->
  discover_all py_repr unicode_lower const api_client (before ++ bad :: after) log = (Raise e, log2).
Proof.
  revert log initialized.
  induction before as [|device_data rest IH]; intros log initialized.
  { intros [= <- <-] Hbad. cbn [app discover_all]. unfold bind. by rewrite Hbad. }
  cbn [app discover_all]. unfold bind.
  destruct (discover_device _ _ _ _ device_data log) as [[device|e'] log'] eqn:Hdev;
    [|done].
  destruct (discover_all _ _ _ _ rest log') as [[devices|e'] log''] eqn:Hrest; [|done].
  intros [= <- <-] Hbad. by rewrite (IH _ _ Hrest Hbad).
Qed.

Lemma assign_all_size devices l :
  (size (assign_all py_repr devices l) <= size devices + length l)%nat.
Proof.
  induction l as [|device l IH] using rev_ind; [cbn; lia|].
  unfold assign_all in *. rewrite foldl_app, length_app. cbn [foldl length].
  rewrite map_size_insert. destruct (_ !! _); cbn; lia.
Qed.

(** X20.  [async_discover_devices] raises [InvalidResponse] when the list
    answer lacks "deviceList" or lacks "count", after that one request and
    before any device is asked for. *)
Theorem discover_rejects_malformed log devices_data :
  async_api_deviceBaseList api_client log = Return devices_data ->
  devices_data !! "deviceList" = None \/ devices_data !! "count" = None ->
  async_discover_devices py_repr unicode_lower const api_client log =
    (Raise InvalidResponse, log ++ [CallDeviceBaseList]).
Proof.
  intros Ha Hm. unfold async_discover_devices, bind, deviceBaseList. rewrite Ha.
  destruct Hm as [->| ->]; [done|]. by destruct (devices_data !! "deviceList").
Qed.

(** X21.  A discovery that returns has asked for the list once and then,
    in the order in which the answer's "deviceList" is walked, once for each
    entry's own "deviceId"; the devices it built, one per entry and in the
    same order, are all initialized and enabled. *)
Theorem discover_asks_each_device log devices log' :
  async_discover_devices py_repr unicode_lower const api_client log =
    (Return devices, log') ->
  exists devices_data device_list entries initialized,
    async_api_deviceBaseList api_client log = Return devices_data /\
    devices_data !! "deviceList" = Some device_list /\
    Py.iter device_list = Return entries /\
    discover_all py_repr unicode_lower const api_client entries
      (log ++ [CallDeviceBaseList]) = (Return initialized, log') /\
    Forall2 (fun device_data device =>
               Py.getitem device_data "deviceId" = Return (_device_id device) /\
               _initialized device = true /\ _enabled device = true)
      entries initialized /\
    log' = log ++ CallDeviceBaseList ::
             (detail_request <$> (_device_id <$> initialized)).
Proof.
  unfold async_discover_devices, bind at 1, deviceBaseList.
  destruct (async_api_deviceBaseList api_client log) as [devices_data|] eqn:Ha;
    [|done].
  destruct (devices_data !! "deviceList") as [device_list|] eqn:Hl; [|done].
  destruct (devices_data !! "count"); [|done].
  unfold bind, lift. destruct (Py.iter device_list) as [entries|] eqn:Hi; [|done].
  rewrite discover_loop_all.
  destruct (discover_all _ _ _ _ _ _) as [[initialized|e] log2] eqn:Hd; [|done].
  intros [= <- <-]. exists devices_data, device_list, entries, initialized.
  repeat (split; [done|]).
  apply discover_all_Return in Hd as [Hall ->]. split; [done|].
  by rewrite <- app_assoc.
Qed.

(** X22.  Discovery gives no partial result: when the initialization of
    one listed device raises, [async_discover_devices] raises the same
    exception, the devices initialized before it are dropped, and the
    entries after it are never asked for. *)
Theorem discover_aborts_on_failure log devices_data device_list
    before bad after initialized log1 e log2 :
  async_api_deviceBaseList api_client log = Return devices_data ->
  devices_data !! "deviceList" = Some device_list ->
  is_Some (devices_data !! "count") ->
  Py.iter device_list = Return (before ++ bad :: after) ->
  discover_all py_repr unicode_lower const api_client before (log ++ [CallDeviceBaseList]) =
    (Return initialized, log1) ->
  discover_device py_repr unicode_lower const api_client bad log1 = (Raise e, log2) ->
  async_discover_devices py_repr unicode_lower const api_client log = (Raise e, log2).
Proof.
  intros Ha Hl [count Hc] Hi Hbefore Hbad.
  unfold async_discover_devices, bind at 1, deviceBaseList. rewrite Ha, Hl, Hc.
  unfold bind, lift. rewrite Hi, discover_loop_all.
  by rewrite (discover_all_Raise _ _ after _ _ _ _ _ Hbefore Hbad).
Qed.

(** X23.  Every key of the mapping discovery returns is the display name
    of the device stored under it, and the mapping never has more devices
    than the list had entries (it has fewer when names collide). *)
Theorem discover_keys_are_display_names log devices log' :
  async_discover_devices py_repr unicode_lower const api_client log = (Return devices, log') ->
  (forall name device,
     devices !! name = Some device ->
     display_name py_repr device = name /\ _initialized device = true) /\
  exists devices_data device_list entries,
    async_api_deviceBaseList api_client log = Return devices_data /\
    devices_data !! "deviceList" = Some device_list /\
    Py.iter device_list = Return entries /\
    (size devices <= length entries)%nat.
Proof.
  unfold async_discover_devices, bind at 1, deviceBaseList.
  destruct (async_api_deviceBaseList api_client log) as [devices_data|] eqn:Ha;
    [|done].
  destruct (devices_data !! "deviceList") as [device_list|] eqn:Hl; [|done].
  destruct (devices_data !! "count"); [|done].
  unfold bind, lift. destruct (Py.iter device_list) as [entries|] eqn:Hi; [|done].
  rewrite discover_loop_all.
  destruct (discover_all _ _ _ _ _ _) as [[initialized|e] log2] eqn:Hd; [|done].
  intros [= <- <-]. apply discover_all_Return in Hd as [Hall _]. split.
  - intros name device. rewrite assign_all_lookup, lookup_empty.
    destruct (last _) as [device'|] eqn:Hlast; [|done]. intros [= ->].
    apply last_Some in Hlast as [l' Hl'].
    assert (Hin : device ∈ filter (fun x => display_name py_repr x = name) initialized).
    { rewrite Hl'. apply elem_of_app. right. apply list_elem_of_here. }
    apply list_elem_of_filter in Hin as [Hname Hin]. split; [done|].
    apply list_elem_of_lookup in Hin as [i Hdev].
    destruct (Forall2_lookup_r _ _ _ _ _ Hall Hdev) as (entry & _ & _ & ? & _). done.
  - exists devices_data, device_list, entries. repeat split; try done.
    pose proof (assign_all_size ∅ initialized) as Hsz.
    rewrite map_size_empty in Hsz.
    pose proof (Forall2_length _ _ _ Hall) as Hlen. lia.
Qed.
End DiscoverExtras.

(** * The statements on the concrete installation *)

Import Fixture.

Lemma motionDetect_after_async_initialize_witness :
  (async_initialize repr no_unicode const (camera_client "WLAN,LocalRecord") (camera, []) =
     (Return tt, (initialized_camera (camera_client "WLAN,LocalRecord"),
                  [CallDeviceBaseDetailList [JStr "X1"]])) /\
   "motionDetect" ∈ _capabilities (initialized_camera (camera_client "WLAN,LocalRecord"))) /\
  (async_initialize repr no_unicode const (camera_client "motionDetect,WLAN") (camera, []) =
     (Return tt, (initialized_camera (camera_client "motionDetect,WLAN"),
                  [CallDeviceBaseDetailList [JStr "X1"]])) /\
   "motionDetect" ∈ _capabilities (initialized_camera (camera_client "motionDetect,WLAN"))).
Proof.
  split.
  - assert (H : async_initialize repr no_unicode const (camera_client "WLAN,LocalRecord") (camera, []) =
                (Return tt, (initialized_camera (camera_client "WLAN,LocalRecord"),
                             [CallDeviceBaseDetailList [JStr "X1"]])))
      by (vm_compute; reflexivity).
    split; [exact H|].
    exact (motionDetect_after_async_initialize repr no_unicode const _ _ _ _ _ H).
  - assert (H : async_initialize repr no_unicode const (camera_client "motionDetect,WLAN") (camera, []) =
                (Return tt, (initialized_camera (camera_client "motionDetect,WLAN"),
                             [CallDeviceBaseDetailList [JStr "X1"]])))
      by (vm_compute; reflexivity).
    split; [exact H|].
    exact (motionDetect_after_async_initialize repr no_unicode const _ _ _ _ _ H).
Defined.

Lemma one_switch_per_matching_type_witness :
  let api_client := camera_client "WLAN,LocalRecord,LOCALRECORD" in
  let d' := initialized_camera api_client in
  let kelvin_client := camera_client kelvin_ability in
  let k' := (async_initialize repr kelvin_lower const_with_linkDevAlarm kelvin_client
               (camera, [])).2.1 in
  (NoDup (keys (IMOU_SWITCHES const)) /\
   async_initialize repr no_unicode const api_client (camera, []) =
     (Return tt, (d', [CallDeviceBaseDetailList [JStr "X1"]])) /\
   _capabilities d' = ["WLAN"; "LocalRecord"; "LOCALRECORD"; "motionDetect"] /\
   switch (_sensor_instances d') =
     [ImouSwitch (JStr "X1") (JStr "Cam") "localRecord";
      ImouSwitch (JStr "X1") (JStr "Cam") "motionDetect"] /\
   exists created,
     switch (_sensor_instances d') = switch (_sensor_instances camera) ++ created /\
     (forall e, e ∈ created ->
        entity_class e = SwitchClass /\ entity_name e ∈ keys (IMOU_SWITCHES const)) /\
     forall switch_type,
       switch_type ∈ keys (IMOU_SWITCHES const) ->
       let instantiated :=
         length (filter (fun e => entity_name e = switch_type) created) in
       (instantiated <= 1)%nat /\
       (instantiated = 1%nat <->
        exists capability,
          capability ∈ _capabilities d' /\
          Py.lower no_unicode switch_type = Py.lower no_unicode capability)) /\
  (NoDup (keys (IMOU_SWITCHES const_with_linkDevAlarm)) /\
   async_initialize repr kelvin_lower const_with_linkDevAlarm kelvin_client (camera, []) =
     (Return tt, (k', [CallDeviceBaseDetailList [JStr "X1"]])) /\
   _capabilities k' = [kelvin_ability; "motionDetect"] /\
   Py.is_ascii kelvin_ability = false /\
   switch (_sensor_instances k') = [ImouSwitch (JStr "X1") (JStr "Cam") "linkDevAlarm"] /\
   exists created,
     switch (_sensor_instances k') = switch (_sensor_instances camera) ++ created /\
     (forall e, e ∈ created ->
        entity_class e = SwitchClass /\
        entity_name e ∈ keys (IMOU_SWITCHES const_with_linkDevAlarm)) /\
     forall switch_type,
       switch_type ∈ keys (IMOU_SWITCHES const_with_linkDevAlarm) ->
       let instantiated :=
         length (filter (fun e => entity_name e = switch_type) created) in
       (instantiated <= 1)%nat /\
       (instantiated = 1%nat <->
        exists capability,
          capability ∈ _capabilities k' /\
          Py.lower kelvin_lower switch_type = Py.lower kelvin_lower capability)).
Proof.
  intros api_client d' kelvin_client k'. split.
  - assert (Hk : NoDup (keys (IMOU_SWITCHES const)))
      by (apply (bool_decide_unpack _); vm_compute; exact I).
    assert (H : async_initialize repr no_unicode const api_client (camera, []) =
                (Return tt, (d', [CallDeviceBaseDetailList [JStr "X1"]])))
      by (vm_compute; reflexivity).
    split; [exact Hk|]. split; [exact H|].
    split; [vm_compute; reflexivity|]. split; [vm_compute; reflexivity|].
    exact (one_switch_per_matching_type repr no_unicode const api_client camera []
             d' _ Hk H).
  - assert (Hk : NoDup (keys (IMOU_SWITCHES const_with_linkDevAlarm)))
      by (apply (bool_decide_unpack _); vm_compute; exact I).
    assert (H : async_initialize repr kelvin_lower const_with_linkDevAlarm
                  kelvin_client (camera, []) =
                (Return tt, (k', [CallDeviceBaseDetailList [JStr "X1"]])))
      by (vm_compute; reflexivity).
    split; [exact Hk|]. split; [exact H|].
    split; [vm_compute; reflexivity|]. split; [vm_compute; reflexivity|].
    split; [vm_compute; reflexivity|].
    exact (one_switch_per_matching_type repr kelvin_lower const_with_linkDevAlarm
             kelvin_client camera [] k' _ Hk H).
Defined.

Lemma async_initialize_twice_witness :
  let api_client := camera_client "WLAN,LocalRecord" in
  let d1 := initialized_camera api_client in
  let d2 := twice_initialized_camera api_client in
  NoDup (keys (IMOU_SWITCHES const)) /\
  _sensor_instances camera = {| switch := []; sensor := []; binary_sensor := [] |} /\
  async_initialize repr no_unicode const api_client (camera, []) =
    (Return tt, (d1, [CallDeviceBaseDetailList [JStr "X1"]])) /\
  async_initialize repr no_unicode const api_client (d1, []) =
    (Return tt, (d2, [CallDeviceBaseDetailList [JStr "X1"]])) /\
  matches no_unicode "localRecord" (_capabilities d1) = true /\
  matches no_unicode "localRecord" (_capabilities d2) = true /\
  (exists name1 name2,
     sensor (_sensor_instances d2) =
       [ImouSensor (JStr "X1") name1 "lastAlarm"; ImouSensor (JStr "X1") name2 "lastAlarm"] /\
     binary_sensor (_sensor_instances d2) =
       [ImouBinarySensor (JStr "X1") name1 "online";
        ImouBinarySensor (JStr "X1") name2 "online"]) /\
  length (filter (fun e => entity_name e = "localRecord")
            (switch (_sensor_instances d2))) = 2%nat.
Proof.
  intros api_client d1 d2.
  assert (Hk : NoDup (keys (IMOU_SWITCHES const)))
    by (apply (bool_decide_unpack _); vm_compute; exact I).
  assert (H1 : async_initialize repr no_unicode const api_client (camera, []) =
               (Return tt, (d1, [CallDeviceBaseDetailList [JStr "X1"]])))
    by (vm_compute; reflexivity).
  assert (H2 : async_initialize repr no_unicode const api_client (d1, []) =
               (Return tt, (d2, [CallDeviceBaseDetailList [JStr "X1"]])))
    by (vm_compute; reflexivity).
  assert (Hm1 : matches no_unicode "localRecord" (_capabilities d1) = true)
    by (vm_compute; reflexivity).
  assert (Hm2 : matches no_unicode "localRecord" (_capabilities d2) = true)
    by (vm_compute; reflexivity).
  assert (Hin : "localRecord" ∈ keys (IMOU_SWITCHES const))
    by (apply (bool_decide_unpack _); vm_compute; exact I).
  destruct (async_initialize_twice repr no_unicode const api_client camera [] d1 _ [] d2 _
              Hk eq_refl H1 H2) as [Hs Hc].
  split; [exact Hk|]. split; [reflexivity|]. split; [exact H1|].
  split; [exact H2|]. split; [exact Hm1|]. split; [exact Hm2|].
  split; [exact Hs|]. exact (Hc "localRecord" Hin Hm1 Hm2).
Defined.

Lemma async_initialize_validation_witness :
  async_initialize repr no_unicode const no_list_client (camera, []) =
    (Raise InvalidResponse, (camera, [CallDeviceBaseDetailList [JStr "X1"]])) /\
  async_initialize repr no_unicode const no_entry_client (camera, []) =
    (Raise InvalidResponse, (camera, [CallDeviceBaseDetailList [JStr "X1"]])) /\
  async_initialize repr no_unicode const two_entries_client (camera, []) =
    (Raise InvalidResponse, (camera, [CallDeviceBaseDetailList [JStr "X1"]])) /\
  (exists d',
     async_initialize repr no_unicode const missing_field_client (camera, []) =
       (Raise InvalidResponse, (d', [CallDeviceBaseDetailList [JStr "X1"]]))) /\
  (exists d',
     async_initialize repr no_unicode const not_an_object_client (camera, []) =
       (Raise InvalidResponse, (d', [CallDeviceBaseDetailList [JStr "X1"]]))) /\
  _initialized (initialized_camera (camera_client "WLAN")) = true /\
  _initialized (initialized_camera missing_field_client) = _initialized camera.
Proof.
  split.
  { destruct (async_initialize_validation repr no_unicode const no_list_client camera [])
      as [H _].
    destruct (H ∅ eq_refl) as [Ha _]. exact (Ha eq_refl). }
  split.
  { destruct (async_initialize_validation repr no_unicode const no_entry_client camera [])
      as [H _].
    destruct (H _ eq_refl) as (_ & Hb & _).
    apply (Hb []); [vm_compute; reflexivity | cbn; lia]. }
  split.
  { destruct (async_initialize_validation repr no_unicode const two_entries_client camera [])
      as [H _].
    destruct (H _ eq_refl) as (_ & Hb & _).
    apply (Hb [entry "Cam" "IPC-C22" "WLAN"; entry "Cam" "IPC-C22" "WLAN"]);
      [vm_compute; reflexivity | cbn; lia]. }
  split.
  { destruct (async_initialize_validation repr no_unicode const missing_field_client camera [])
      as [H _].
    destruct (H _ eq_refl) as (_ & _ & Hc).
    destruct (Hc (JDict {[ "catalog" := JStr "IPC" ]})) as [_ Hr];
      [vm_compute; reflexivity|].
    apply Hr. vm_compute; reflexivity. }
  split.
  { destruct (async_initialize_validation repr no_unicode const not_an_object_client camera [])
      as [H _].
    destruct (H _ eq_refl) as (_ & _ & Hc).
    destruct (Hc (JStr "oops")) as [_ Hr]; [vm_compute; reflexivity|].
    apply Hr. reflexivity. }
  split.
  { destruct (async_initialize_validation repr no_unicode const (camera_client "WLAN") camera [])
      as [_ H].
    apply (H (Return tt) _ [CallDeviceBaseDetailList [JStr "X1"]]).
    vm_compute; reflexivity. }
  { destruct (async_initialize_validation repr no_unicode const missing_field_client camera [])
      as [_ H].
    apply (H (Raise InvalidResponse) _ [CallDeviceBaseDetailList [JStr "X1"]]).
    vm_compute; reflexivity. }
Defined.

Lemma async_get_data_refreshes_witness :
  let online := camera_client "WLAN,LocalRecord" in
  let d := initialized_camera online in
  _enabled d = true /\ _initialized d = true /\
  (exists d',
     async_get_data repr no_unicode const online (d, []) =
       (Return true,
        (d', [CallDeviceOnline (JStr "X1")] ++ (CallEntityUpdate <$> get_all_sensors d))) /\
     _online d' = true) /\
  async_get_data repr no_unicode const offline_client (d, []) =
    (Return true, (set_online false d, [CallDeviceOnline (JStr "X1")])).
Proof.
  intros online d.
  assert (He : _enabled d = true) by reflexivity.
  assert (Hi : _initialized d = true) by reflexivity.
  split; [exact He|]. split; [exact Hi|]. split.
  - destruct (async_get_data_refreshes repr no_unicode const online d []
                {[ "onLine" := JStr "1" ]} (JStr "1") He Hi eq_refl eq_refl)
      as [H _].
    apply H; [reflexivity|]. intros h e. exists (JStr "on"). reflexivity.
  - destruct (async_get_data_refreshes repr no_unicode const offline_client d []
                {[ "onLine" := JStr "0" ]} (JStr "0") He Hi eq_refl eq_refl)
      as [_ H].
    apply H. discriminate.
Defined.

(** C3, as stated, fails.  The camera is enabled, initialized and
    reported online, and owns four entities; the update of the first one
    raises, so [async_get_data] raises instead of returning true and the
    three entities after it are never updated. *)
Lemma async_get_data_refresh_raises :
  let api_client := failing_refresh_client in
  let d := initialized_camera api_client in
  _enabled d = true /\ _initialized d = true /\
  async_api_deviceOnline api_client [] (_device_id d) = Return {[ "onLine" := JStr "1" ]} /\
  length (get_all_sensors d) = 4%nat /\
  (async_get_data repr no_unicode const api_client (d, [])).1 = Raise InvalidResponse /\
  updates_of (async_get_data repr no_unicode const api_client (d, [])).2.2 =
    [ImouSwitch (JStr "X1") (JStr "Cam") "localRecord"] /\
  ~ exists d',
      async_get_data repr no_unicode const api_client (d, []) =
        (Return true,
         (d', [CallDeviceOnline (JStr "X1")] ++ (CallEntityUpdate <$> get_all_sensors d))).
Proof.
  cbn zeta. repeat split; try (vm_compute; reflexivity).
  intros [d' H]. apply (f_equal fst) in H. vm_compute in H. discriminate.
Qed.

Lemma async_get_data_disabled_witness :
  _enabled (set_enabled false camera) = false /\
  async_get_data repr no_unicode const (camera_client "WLAN") (set_enabled false camera, []) =
    (Return false, (set_enabled false camera, [])).
Proof.
  split; [reflexivity|].
  exact (async_get_data_disabled repr no_unicode const (camera_client "WLAN")
           (set_enabled false camera) [] eq_refl).
Defined.

Lemma async_get_data_missing_onLine_witness :
  let d := initialized_camera no_onLine_client in
  _enabled d = true /\ _initialized d = true /\
  async_api_deviceOnline no_onLine_client [] (_device_id d) = Return ∅ /\
  async_get_data repr no_unicode const no_onLine_client (d, []) =
    (Raise InvalidResponse, (d, [CallDeviceOnline (JStr "X1")])).
Proof.
  intros d. split; [reflexivity|]. split; [reflexivity|]. split; [reflexivity|].
  exact (async_get_data_missing_onLine repr no_unicode const no_onLine_client d [] ∅
           eq_refl eq_refl eq_refl eq_refl).
Defined.

Lemma get_name_override_witness :
  let d := initialized_camera (camera_client "WLAN") in
  "Porch" <> EmptyString /\
  get_name (set_name "Porch" d) = JStr "Porch" /\
  _given_name d = EmptyString /\
  get_name d = JStr "Cam" /\
  get_name (set_name EmptyString (set_name "Porch" d)) = JStr "Cam".
Proof.
  intros d.
  assert (Hne : "Porch" <> EmptyString) by discriminate.
  split; [exact Hne|].
  destruct (get_name_override d) as (H1 & _ & H3 & _).
  destruct (get_name_override (set_name "Porch" d)) as (_ & _ & _ & H4).
  split; [exact (H1 "Porch" Hne)|]. split; [reflexivity|].
  split; [exact (H3 eq_refl)|]. exact H4.
Defined.


Lemma discover_later_device_wins_witness :
  display_name repr device_A = display_name repr device_B /\
  device_A <> device_B /\
  async_discover_devices repr no_unicode const twin_client [] =
    (Return {[ "Cam" := device_B ]},
     [CallDeviceBaseList; CallDeviceBaseDetailList [JStr "A"];
      CallDeviceBaseDetailList [JStr "B"]]) /\
  exists devices_data device_list entries initialized,
    async_api_deviceBaseList twin_client [] = Return devices_data /\
    devices_data !! "deviceList" = Some device_list /\
    Py.iter device_list = Return entries /\
    discover_all repr no_unicode const twin_client entries ([] ++ [CallDeviceBaseList]) =
      (Return initialized,
       [CallDeviceBaseList; CallDeviceBaseDetailList [JStr "A"];
        CallDeviceBaseDetailList [JStr "B"]]) /\
    forall name,
      ({[ "Cam" := device_B ]} : gmap string ImouDevice) !! name =
      last (filter (fun device => display_name repr device = name) initialized).
Proof.
  split; [reflexivity|]. split; [vm_compute; discriminate|].
  assert (H : async_discover_devices repr no_unicode const twin_client [] =
              (Return {[ "Cam" := device_B ]},
               [CallDeviceBaseList; CallDeviceBaseDetailList [JStr "A"];
                CallDeviceBaseDetailList [JStr "B"]]))
    by (vm_compute; reflexivity).
  split; [exact H|].
  exact (discover_later_device_wins repr no_unicode const twin_client [] _ _ H).
Defined.

(** * The further properties on the concrete installation *)

Lemma async_initialize_rejected_adds_nothing_witness :
  let d' := initialized_camera missing_field_client in
  async_initialize repr no_unicode const missing_field_client (camera, []) =
    (Raise InvalidResponse, (d', [CallDeviceBaseDetailList [JStr "X1"]])) /\
  _sensor_instances d' = _sensor_instances camera /\
  _capabilities d' = _capabilities camera /\
  _switches d' = _switches camera /\
  _initialized d' = _initialized camera.
Proof.
  intros d'.
  assert (H : async_initialize repr no_unicode const missing_field_client (camera, []) =
              (Raise InvalidResponse, (d', [CallDeviceBaseDetailList [JStr "X1"]])))
    by (vm_compute; reflexivity).
  split; [exact H|].
  exact (async_initialize_rejected_adds_nothing repr no_unicode const missing_field_client
           camera [] d' _ H).
Defined.

Lemma async_initialize_returns_witness :
  table_has (SENSORS const) "lastAlarm" = true /\
  table_has (BINARY_SENSORS const) "online" = true /\
  describable const camera /\
  async_initialize repr no_unicode const (camera_client "WLAN") (camera, []) =
    (Return tt,
     (set_initialized true
        (populated no_unicode const (JStr "IPC") (JStr "2.680") (JStr "Cam") (JStr "IPC-C22")
           (JStr "online") "WLAN" camera),
      [] ++ [detail_request (_device_id camera)])).
Proof.
  assert (Hs : table_has (SENSORS const) "lastAlarm" = true) by reflexivity.
  assert (Hb : table_has (BINARY_SENSORS const) "online" = true) by reflexivity.
  assert (Hd : describable const camera) by (split; constructor).
  split; [exact Hs|]. split; [exact Hb|]. split; [exact Hd|].
  apply (async_initialize_returns repr no_unicode const (camera_client "WLAN") camera []
           {[ "deviceList" := JList [entry "Cam" "IPC-C22" "WLAN"] ]}
           (entry "Cam" "IPC-C22" "WLAN") _ _ _ _ _ _ Hs Hb Hd).
  - reflexivity.
  - vm_compute; reflexivity.
  - vm_compute; reflexivity.
Defined.

Lemma async_initialize_needs_descriptions_witness :
  table_has (SENSORS const_without_lastAlarm) "lastAlarm" = false /\
  (async_initialize repr no_unicode const_without_lastAlarm (camera_client "WLAN") (camera, [])).1
    <> Return tt.
Proof.
  split; [reflexivity|].
  apply (async_initialize_needs_descriptions repr no_unicode const_without_lastAlarm
           (camera_client "WLAN") camera []).
  left. reflexivity.
Defined.

Lemma async_initialize_not_atomic_witness :
  async_api_deviceBaseDetailList missing_field_client [] [_device_id camera] =
    Return {[ "deviceList" := JList [JDict {[ "catalog" := JStr "IPC" ]}] ]} /\
  async_initialize repr no_unicode const missing_field_client (camera, []) =
    (Raise InvalidResponse,
     (set_catalog (JStr "IPC") camera, [] ++ [detail_request (_device_id camera)])).
Proof.
  split; [reflexivity|].
  apply (async_initialize_not_atomic repr no_unicode const missing_field_client camera []
           {[ "deviceList" := JList [JDict {[ "catalog" := JStr "IPC" ]}] ]}
           {[ "catalog" := JStr "IPC" ]} (JStr "IPC")).
  - reflexivity.
  - vm_compute; reflexivity.
  - vm_compute; reflexivity.
  - vm_compute; reflexivity.
Defined.

Lemma async_initialize_labels_entities_witness :
  let api_client := camera_client "WLAN,LocalRecord" in
  let d' := (async_initialize repr no_unicode const api_client (porch_camera, [])).2.1 in
  async_initialize repr no_unicode const api_client (porch_camera, []) =
    (Return tt, (d', [CallDeviceBaseDetailList [JStr "X1"]])) /\
  get_name d' = JStr "Porch" /\
  exists created_switch created_sensor created_binary_sensor,
    switch (_sensor_instances d') =
      switch (_sensor_instances porch_camera) ++ created_switch /\
    sensor (_sensor_instances d') =
      sensor (_sensor_instances porch_camera) ++ [created_sensor] /\
    binary_sensor (_sensor_instances d') =
      binary_sensor (_sensor_instances porch_camera) ++ [created_binary_sensor] /\
    forall e,
      e ∈ created_switch ++ [created_sensor; created_binary_sensor] ->
      entity_device_id e = _device_id d' /\ entity_device_name e = get_name d'.
Proof.
  intros api_client d'.
  assert (H : async_initialize repr no_unicode const api_client (porch_camera, []) =
              (Return tt, (d', [CallDeviceBaseDetailList [JStr "X1"]])))
    by (vm_compute; reflexivity).
  split; [exact H|]. split; [vm_compute; reflexivity|].
  exact (async_initialize_labels_entities repr no_unicode const api_client porch_camera [] d' _ H).
Defined.

Lemma motionDetect_switch_always_created_witness :
  let api_client := camera_client "WLAN" in
  let d' := initialized_camera api_client in
  "motionDetect" ∈ keys (IMOU_SWITCHES const) /\
  async_initialize repr no_unicode const api_client (camera, []) =
    (Return tt, (d', [CallDeviceBaseDetailList [JStr "X1"]])) /\
  exists e,
    e ∈ drop (length (switch (_sensor_instances camera)))
          (switch (_sensor_instances d')) /\
    entity_class e = SwitchClass /\ entity_name e = "motionDetect".
Proof.
  intros api_client d'.
  assert (Hk : "motionDetect" ∈ keys (IMOU_SWITCHES const))
    by (apply (bool_decide_unpack _); vm_compute; exact I).
  assert (H : async_initialize repr no_unicode const api_client (camera, []) =
              (Return tt, (d', [CallDeviceBaseDetailList [JStr "X1"]])))
    by (vm_compute; reflexivity).
  split; [exact Hk|]. split; [exact H|].
  exact (motionDetect_switch_always_created repr no_unicode const api_client camera [] d' _
           "motionDetect" Hk eq_refl H).
Defined.

Lemma async_initialize_raw_errors_witness :
  async_initialize repr no_unicode const object_list_client (camera, []) =
    (Raise KeyError, (camera, [] ++ [detail_request (_device_id camera)])) /\
  async_initialize repr no_unicode const number_list_client (camera, []) =
    (Raise TypeError, (camera, [] ++ [detail_request (_device_id camera)])).
Proof.
  split.
  - destruct (async_initialize_raw_errors repr no_unicode const object_list_client camera []
                {[ "deviceList" := JDict {[ "X1" := entry "Cam" "IPC-C22" "WLAN" ]} ]}
                (JDict {[ "X1" := entry "Cam" "IPC-C22" "WLAN" ]}))
      as [H _]; [reflexivity | vm_compute; reflexivity |].
    apply H. eexists. split; [reflexivity | vm_compute; reflexivity].
  - destruct (async_initialize_raw_errors repr no_unicode const number_list_client camera []
                {[ "deviceList" := JInt 1 ]} (JInt 1))
      as [_ H]; [reflexivity | vm_compute; reflexivity |].
    apply H. right. right. by exists 1%Z.
Defined.

Lemma async_get_data_initializes_first_witness :
  let api_client := camera_client "WLAN,LocalRecord" in
  _enabled camera = true /\ _initialized camera = false /\
  async_get_data repr no_unicode const api_client (camera, []) =
  match async_initialize repr no_unicode const api_client (camera, []) with
  | (Return _, s) => async_get_data repr no_unicode const api_client s
  | (Raise e, s) => (Raise e, s)
  end.
Proof.
  intros api_client. split; [reflexivity|]. split; [reflexivity|].
  exact (async_get_data_initializes_first repr no_unicode const api_client camera []
           eq_refl eq_refl).
Defined.

Lemma async_get_data_asks_in_order_witness :
  let api_client := failing_refresh_client in
  let d := initialized_camera api_client in
  let run := async_get_data repr no_unicode const api_client (d, []) in
  let history i :=
    [] ++ CallDeviceOnline (_device_id d) ::
      (CallEntityUpdate <$> take i (get_all_sensors d)) in
  _enabled d = true /\ _initialized d = true /\
  length (get_all_sensors d) = 4 /\
  run.1 = Raise InvalidResponse /\
  run.2.2 = [CallDeviceOnline (JStr "X1");
             CallEntityUpdate (ImouSwitch (JStr "X1") (JStr "Cam") "localRecord")] /\
  exists k,
    run.2.2 = history k /\
    (forall i e, get_all_sensors d !! i = Some e -> S i < k ->
       exists state, entity_refresh api_client (history i) e = Return state) /\
    (forall i e x, get_all_sensors d !! i = Some e -> S i = k ->
       entity_refresh api_client (history i) e = Raise x -> run.1 = Raise x) /\
    (forall i e state, get_all_sensors d !! i = Some e -> S i = k ->
       entity_refresh api_client (history i) e = Return state ->
       k = length (get_all_sensors d) /\ run.1 = Return true) /\
    (forall data,
       async_api_deviceOnline api_client [] (_device_id d) = Return data ->
       data !! "onLine" = Some (JStr "1") ->
       get_all_sensors d <> [] -> 0 < k).
Proof.
  intros api_client d run history.
  assert (He : _enabled d = true) by (vm_compute; reflexivity).
  assert (Hi : _initialized d = true) by (vm_compute; reflexivity).
  split; [exact He|]. split; [exact Hi|].
  split; [vm_compute; reflexivity|]. split; [vm_compute; reflexivity|].
  split; [vm_compute; reflexivity|].
  exact (async_get_data_asks_in_order repr no_unicode const api_client d [] He Hi).
Defined.

Lemma async_get_data_keeps_entities_witness :
  let api_client := camera_client "WLAN,LocalRecord" in
  let d := initialized_camera api_client in
  _enabled d = true /\ _initialized d = true /\
  same_details d (async_get_data repr no_unicode const api_client (d, [])).2.1 /\
  same_entities d (async_get_data repr no_unicode const api_client (d, [])).2.1.
Proof.
  intros api_client d.
  assert (He : _enabled d = true) by (vm_compute; reflexivity).
  assert (Hi : _initialized d = true) by (vm_compute; reflexivity).
  split; [exact He|]. split; [exact Hi|].
  exact (async_get_data_keeps_entities repr no_unicode const api_client d [] He Hi).
Defined.

Lemma async_get_data_online_flag_witness :
  let d := initialized_camera numeric_onLine_client in
  _enabled d = true /\ _initialized d = true /\
  async_api_deviceOnline numeric_onLine_client [] (_device_id d) =
    Return {[ "onLine" := JInt 1 ]} /\
  (is_online (async_get_data repr no_unicode const numeric_onLine_client (d, [])).2.1 = true <->
   JInt 1 = JStr "1").
Proof.
  intros d.
  assert (He : _enabled d = true) by (vm_compute; reflexivity).
  assert (Hi : _initialized d = true) by (vm_compute; reflexivity).
  split; [exact He|]. split; [exact Hi|]. split; [reflexivity|].
  apply (async_get_data_online_flag repr no_unicode const numeric_onLine_client d []
           {[ "onLine" := JInt 1 ]} (JInt 1) He Hi); [reflexivity|].
  vm_compute; reflexivity.
Defined.

Lemma async_get_data_returns_enabled_witness :
  let api_client := camera_client "WLAN,LocalRecord" in
  async_get_data repr no_unicode const api_client (camera, []) =
    (Return true, (async_get_data repr no_unicode const api_client (camera, [])).2) /\
  true = _enabled camera.
Proof.
  intros api_client.
  assert (H : async_get_data repr no_unicode const api_client (camera, []) =
              (Return true, (async_get_data repr no_unicode const api_client (camera, [])).2))
    by (vm_compute; reflexivity).
  split; [exact H|].
  exact (async_get_data_returns_enabled repr no_unicode const api_client camera [] true _ H).
Defined.

Lemma async_get_data_initializes_once_witness :
  let api_client := camera_client "WLAN,LocalRecord" in
  let d1 := (async_get_data repr no_unicode const api_client (camera, [])).2.1 in
  let log1 := (async_get_data repr no_unicode const api_client (camera, [])).2.2 in
  async_get_data repr no_unicode const api_client (camera, []) = (Return true, (d1, log1)) /\
  _initialized d1 = true /\ _enabled d1 = true /\
  forall log2,
    exists k,
      (async_get_data repr no_unicode const api_client (d1, log2)).2.2 =
      log2 ++ CallDeviceOnline (_device_id d1) ::
        (CallEntityUpdate <$> take k (get_all_sensors d1)).
Proof.
  intros api_client d1 log1.
  assert (H : async_get_data repr no_unicode const api_client (camera, []) =
              (Return true, (d1, log1)))
    by (vm_compute; reflexivity).
  split; [exact H|].
  exact (async_get_data_initializes_once repr no_unicode const api_client camera [] d1 log1 H).
Defined.

Lemma switches_in_step_kept_witness :
  let api_client := camera_client "WLAN,LocalRecord" in
  let d1 := (async_initialize repr no_unicode const api_client (camera, [])).2.1 in
  let d2 := (async_get_data repr no_unicode const api_client (d1, [])).2.1 in
  switches_in_step camera /\ switches_in_step d1 /\ switches_in_step d2 /\
  _switches d2 = ["localRecord"; "motionDetect"].
Proof.
  intros api_client d1 d2.
  destruct (switches_in_step_kept repr no_unicode const api_client) as (H0 & H1 & H2).
  pose proof (H0 (JStr "X1")) as Hc.
  pose proof (H1 camera [] Hc) as Hd1.
  pose proof (H2 d1 [] Hd1) as Hd2.
  split; [exact Hc|]. split; [exact Hd1|]. split; [exact Hd2|].
  vm_compute; reflexivity.
Defined.

Lemma sorted_by_class_kept_witness :
  let api_client := failing_refresh_client in
  let d1 := (async_initialize repr no_unicode const api_client (camera, [])).2.1 in
  let d2 := (async_get_data repr no_unicode const api_client (d1, [])).2.1 in
  sorted_by_class camera /\ sorted_by_class d1 /\ sorted_by_class d2.
Proof.
  intros api_client d1 d2.
  destruct (sorted_by_class_kept repr no_unicode const api_client) as (H0 & H1 & H2).
  pose proof (H0 (JStr "X1")) as Hc.
  pose proof (H1 camera [] Hc) as Hd1.
  pose proof (H2 d1 [] Hd1) as Hd2.
  split; [exact Hc|]. split; [exact Hd1|]. exact Hd2.
Defined.

Lemma diagnostics_after_initialize_witness :
  let api_client := failing_refresh_client in
  let d1 := initialized_camera api_client in
  let d2 := (async_get_data repr no_unicode const api_client (d1, [])).2.1 in
  async_initialize repr no_unicode const api_client (camera, []) =
    (Return tt, (d1, [CallDeviceBaseDetailList [JStr "X1"]])) /\
  (async_get_data repr no_unicode const api_client (d1, [])).1 = Raise InvalidResponse /\
  (exists data, get_diagnostics const api_client d1 = Return data) /\
  (exists data, get_diagnostics const api_client d2 = Return data) /\
  (exists text, dump repr const api_client d2 = Return text).
Proof.
  intros api_client d1 d2.
  assert (H : async_initialize repr no_unicode const api_client (camera, []) =
              (Return tt, (d1, [CallDeviceBaseDetailList [JStr "X1"]])))
    by (vm_compute; reflexivity).
  split; [exact H|]. split; [vm_compute; reflexivity|].
  exact (diagnostics_after_initialize repr no_unicode const api_client camera [] d1 _ [] H).
Defined.

Lemma get_sensor_by_name_first_witness :
  let d := initialized_camera (camera_client "WLAN,LocalRecord") in
  get_sensor_by_name "lastAlarm" d = Some (ImouSensor (JStr "X1") (JStr "Cam") "lastAlarm") /\
  (exists before after,
     get_all_sensors d =
       before ++ ImouSensor (JStr "X1") (JStr "Cam") "lastAlarm" :: after /\
     entity_name (ImouSensor (JStr "X1") (JStr "Cam") "lastAlarm") = "lastAlarm" /\
     Forall (fun x => entity_name x <> "lastAlarm") before) /\
  get_sensor_by_name "doorbell" d = None /\
  Forall (fun x => entity_name x <> "doorbell") (get_all_sensors d).
Proof.
  intros d.
  destruct (get_sensor_by_name_first "lastAlarm" d) as [H1 _].
  destruct (get_sensor_by_name_first "doorbell" d) as [_ H2].
  assert (Hs : get_sensor_by_name "lastAlarm" d =
               Some (ImouSensor (JStr "X1") (JStr "Cam") "lastAlarm"))
    by (vm_compute; reflexivity).
  assert (Hn : get_sensor_by_name "doorbell" d = None) by (vm_compute; reflexivity).
  split; [exact Hs|]. split; [exact (proj1 (H1 _) Hs)|].
  split; [exact Hn|]. exact (proj1 H2 Hn).
Defined.

Lemma get_sensors_by_platform_selects_witness :
  let api_client := camera_client "WLAN,LocalRecord" in
  let d := (async_initialize repr no_unicode const api_client (camera, [])).2.1 in
  sorted_by_class d /\
  get_sensors_by_platform "switch" d =
    filter (fun e => entity_class e = SwitchClass) (get_all_sensors d) /\
  get_sensors_by_platform "sensor" d =
    filter (fun e => entity_class e = SensorClass) (get_all_sensors d) /\
  get_sensors_by_platform "binary_sensor" d =
    filter (fun e => entity_class e = BinarySensorClass) (get_all_sensors d) /\
  get_sensors_by_platform "Switch" d = [].
Proof.
  intros api_client d.
  assert (Hd : sorted_by_class d).
  { unfold sorted_by_class.
    repeat split; apply Forall_forall; intros e He; vm_compute in He;
      repeat (apply elem_of_cons in He as [->|He]; [reflexivity|]);
      by apply not_elem_of_nil in He. }
  split; [exact Hd|].
  destruct (get_sensors_by_platform_selects d Hd) as (H1 & H2 & H3 & H4).
  split; [exact H1|]. split; [exact H2|]. split; [exact H3|].
  apply H4; discriminate.
Defined.

Lemma discover_rejects_malformed_witness :
  async_api_deviceBaseList no_count_client [] =
    Return {[ "deviceList" := JList [JDict {[ "deviceId" := JStr "A" ]}] ]} /\
  async_discover_devices repr no_unicode const no_count_client [] =
    (Raise InvalidResponse, [] ++ [CallDeviceBaseList]).
Proof.
  split; [reflexivity|].
  apply (discover_rejects_malformed repr no_unicode const no_count_client []
           {[ "deviceList" := JList [JDict {[ "deviceId" := JStr "A" ]}] ]});
    [reflexivity|].
  right. vm_compute; reflexivity.
Defined.

Lemma discover_asks_each_device_witness :
  async_discover_devices repr no_unicode const twin_client [] =
    (Return {[ "Cam" := device_B ]},
     [CallDeviceBaseList; detail_request (JStr "A"); detail_request (JStr "B")]) /\
  exists devices_data device_list entries initialized,
    async_api_deviceBaseList twin_client [] = Return devices_data /\
    devices_data !! "deviceList" = Some device_list /\
    Py.iter device_list = Return entries /\
    discover_all repr no_unicode const twin_client entries ([] ++ [CallDeviceBaseList]) =
      (Return initialized,
       [CallDeviceBaseList; detail_request (JStr "A"); detail_request (JStr "B")]) /\
    Forall2 (fun device_data device =>
               Py.getitem device_data "deviceId" = Return (_device_id device) /\
               _initialized device = true /\ _enabled device = true)
      entries initialized /\
    [CallDeviceBaseList; detail_request (JStr "A"); detail_request (JStr "B")] =
      [] ++ CallDeviceBaseList :: (detail_request <$> (_device_id <$> initialized)).
Proof.
  assert (H : async_discover_devices repr no_unicode const twin_client [] =
              (Return {[ "Cam" := device_B ]},
               [CallDeviceBaseList; detail_request (JStr "A");
                detail_request (JStr "B")]))
    by (vm_compute; reflexivity).
  split; [exact H|].
  exact (discover_asks_each_device repr no_unicode const twin_client [] _ _ H).
Defined.

Lemma discover_aborts_on_failure_witness :
  let entry_of id := JDict {[ "deviceId" := JStr id ]} in
  Py.iter (JList [entry_of "A"; entry_of "B"; entry_of "C"]) =
    Return ([entry_of "A"] ++ entry_of "B" :: [entry_of "C"]) /\
  discover_device repr no_unicode const second_fails_client (entry_of "B")
    [CallDeviceBaseList; detail_request (JStr "A")] =
    (Raise InvalidResponse,
     [CallDeviceBaseList; detail_request (JStr "A"); detail_request (JStr "B")]) /\
  async_discover_devices repr no_unicode const second_fails_client [] =
    (Raise InvalidResponse,
     [CallDeviceBaseList; detail_request (JStr "A"); detail_request (JStr "B")]).
Proof.
  intros entry_of.
  assert (Hb : discover_device repr no_unicode const second_fails_client (entry_of "B")
                 [CallDeviceBaseList; detail_request (JStr "A")] =
               (Raise InvalidResponse,
                [CallDeviceBaseList; detail_request (JStr "A");
                 detail_request (JStr "B")]))
    by (vm_compute; reflexivity).
  split; [reflexivity|]. split; [exact Hb|].
  apply (discover_aborts_on_failure repr no_unicode const second_fails_client []
           (list_to_map
              [("count", JInt 3);
               ("deviceList", JList [entry_of "A"; entry_of "B"; entry_of "C"])])
           (JList [entry_of "A"; entry_of "B"; entry_of "C"])
           [entry_of "A"] (entry_of "B") [entry_of "C"]
           [(async_initialize repr no_unicode const second_fails_client (init (JStr "A"),
               [CallDeviceBaseList])).2.1]
           [CallDeviceBaseList; detail_request (JStr "A")]).
  - reflexivity.
  - vm_compute; reflexivity.
  - exists (JInt 3). vm_compute; reflexivity.
  - reflexivity.
  - vm_compute; reflexivity.
  - exact Hb.
Defined.

Lemma discover_keys_are_display_names_witness :
  async_discover_devices repr no_unicode const twin_client [] =
    (Return {[ "Cam" := device_B ]},
     [CallDeviceBaseList; detail_request (JStr "A"); detail_request (JStr "B")]) /\
  size ({[ "Cam" := device_B ]} : gmap string ImouDevice) = 1%nat /\
  (forall name device,
     ({[ "Cam" := device_B ]} : gmap string ImouDevice) !! name = Some device ->
     display_name repr device = name /\ _initialized device = true) /\
  exists devices_data device_list entries,
    async_api_deviceBaseList twin_client [] = Return devices_data /\
    devices_data !! "deviceList" = Some device_list /\
    Py.iter device_list = Return entries /\
    (size ({[ "Cam" := device_B ]} : gmap string ImouDevice) <= length entries)%nat.
Proof.
  assert (H : async_discover_devices repr no_unicode const twin_client [] =
              (Return {[ "Cam" := device_B ]},
               [CallDeviceBaseList; detail_request (JStr "A");
                detail_request (JStr "B")]))
    by (vm_compute; reflexivity).
  split; [exact H|]. split; [vm_compute; reflexivity|].
  exact (discover_keys_are_display_names repr no_unicode const twin_client [] _ _ H).
Defined.
